(** * PoemSys: port pool, tunnel orchestrator and container lifecycle

    A shallow embedding of [port_manager.py], [nps_manager.py],
    [dynamic_tunnel_manager.py] and [container_manager.py].

    Conventions of the embedding.
    - A Python method becomes a function that takes the object's state and
      the outside world and returns its result with the new state and the
      new world.  The outside world (clock, random source, the HTTP
      transport to the NPS broker, the Docker daemon) is an abstract type
      with the operations of class [World]; every theorem that does not
      name a concrete world holds for all of them.
    - [allocated_ports] is a Python dict keyed by [str(port)].  [str] is
      injective on [int], so the model keys the table by the port itself;
      the test [p.isdigit()] on a key [str(port)] is [0 <= port].
    - Dicts whose iteration order drives calls to the broker
      ([tunnel_mappings], the per-container service dict) are insertion
      ordered association lists; the others are [gmap]s.
    - The three JSON state files are modelled by their logical content.  A
      write is taken to succeed (the [except] branches of the [save]
      functions only print a warning). *)

From Stdlib Require Import ZArith String Ascii List Bool Lia.
From stdpp Require Import base option list gmap strings pretty list_numbers.

Local Open Scope string_scope.
Local Open Scope Z_scope.
Set Warnings "-clear-no-such-hyp".

(** ** Python strings *)

Module Py.

(** [c.lower()] on ASCII letters. *)
Definition lower_ascii (c : ascii) : ascii :=
  let n := nat_of_ascii c in
  if ((65 <=? n)%nat && (n <=? 90)%nat)%bool then ascii_of_nat (n + 32) else c.

(** [s.lower()] (ASCII case folding). *)
Fixpoint lower (s : string) : string :=
  match s with
  | EmptyString => EmptyString
  | String c s' => String (lower_ascii c) (lower s')
  end.

(** [hay.startswith(needle)]. *)
Definition startswith (hay needle : string) : bool := String.prefix needle hay.

(** [needle in hay]: substring containment. *)
Fixpoint contains (needle hay : string) : bool :=
  String.prefix needle hay ||
  match hay with
  | EmptyString => false
  | String _ hay' => contains needle hay'
  end.

(** [hay.endswith(needle)]. *)
Fixpoint endswith (hay needle : string) : bool :=
  String.eqb hay needle ||
  match hay with
  | EmptyString => false
  | String _ hay' => endswith hay' needle
  end.

(** [s.split(sep)[-1]]: the text after the last [sep]; [acc] is the
    last segment read so far. *)
Fixpoint split_last_go (sep : ascii) (s acc : string) : string :=
  match s with
  | EmptyString => acc
  | String c s' =>
      if Ascii.eqb c sep then split_last_go sep s' EmptyString
      else split_last_go sep s' (acc ++ String c EmptyString)
  end.

Definition split_last (sep : ascii) (s : string) : string :=
  split_last_go sep s EmptyString.

(** [s[:n]]. *)
Definition take (n : nat) (s : string) : string := String.substring 0 n s.

(** [str(z)] for an [int]. *)
Definition str_of_int (z : Z) : string := pretty z.

(** [x in l] for a list of ints. *)
Definition in_list (x : Z) (l : list Z) : bool := bool_decide (x ∈ l).

(** The value of a call to a function that has no [return]. *)
Inductive NoneType := PyNone.

(** [bool(None)] *)
Definition truthy_none (_ : NoneType) : bool := false.

(** [bool(x)] for an [Optional[int]]: [None] and [0] are falsy. *)
Definition truthy_int (x : option Z) : bool :=
  match x with
  | Some z => negb (z =? 0)
  | None => false
  end.

(** [bool(s)] for an [Optional[str]]: [None] and [''] are falsy. *)
Definition truthy_str (x : option string) : bool :=
  match x with
  | Some s => negb (String.eqb s EmptyString)
  | None => false
  end.

End Py.

(** ** Insertion-ordered dicts *)

Module ODict.
Section Ops.
Context {K V : Type} `{EqDecision K}.

Definition t := list (K * V).

(** [d.get(k)] *)
Fixpoint get (k : K) (d : list (K * V)) : option V :=
  match d with
  | [] => None
  | (k', v) :: d' => if decide (k = k') then Some v else get k d'
  end.

(** [d[k] = v]: an existing key keeps its position. *)
Fixpoint set (k : K) (v : V) (d : list (K * V)) : list (K * V) :=
  match d with
  | [] => [(k, v)]
  | (k', v') :: d' =>
      if decide (k = k') then (k, v) :: d' else (k', v') :: set k v d'
  end.

(** [del d[k]] *)
Fixpoint del (k : K) (d : list (K * V)) : list (K * V) :=
  match d with
  | [] => []
  | (k', v') :: d' =>
      if decide (k = k') then del k d' else (k', v') :: del k d'
  end.

Definition mem (k : K) (d : list (K * V)) : bool :=
  match get k d with Some _ => true | None => false end.
End Ops.
End ODict.

(** ** The outside world *)

(** A value sent as a query or form parameter. *)
Inductive PVal :=
| PInt (z : Z)
| PStr (s : string).

Inductive Method := GET | POST | OtherMethod (m : string).

(** One row of the broker's tunnel list ([index/gettunnel]). *)
Record TunnelRow := {
  row_Id : Z;
  row_Port : Z;
  row_TargetStr : option string;   (* tunnel['Target']['TargetStr'] when present *)
  row_Remark : option string;
}.

(** The [data] object of [index/getonetunnel]; a field is [None] when
    the key is absent. *)
Record TunnelData := {
  td_Id : option Z;
  td_Port : option Z;
  td_ClientId : option Z;          (* data['Client']['Id'] *)
  td_TargetStr : option string;
  td_Remark : option string;
}.

(** A JSON object answered by the broker, by the keys the code reads. *)
Record Response := {
  r_status : option Z;
  r_msg : option string;
  r_rows : option (list TunnelRow);
  r_code : option Z;
  r_data : option TunnelData;
}.

Definition status_response (st : Z) (msg : string) : Response :=
  {| r_status := Some st; r_msg := Some msg; r_rows := None;
     r_code := None; r_data := None |}.

(** [response.json()]: the parsed object, or [json.JSONDecodeError]. *)
Inductive JsonBody :=
| JsonOk (r : Response)
| JsonDecodeError (err : string).

Record HttpReply := {
  status_code : Z;
  content_type : string;           (* response.headers.get('Content-Type', '') *)
  text : string;
  json : JsonBody;
}.

(** What one call of [requests.get] / [requests.post] does. *)
Inductive Attempt :=
| Timeout                          (* requests.exceptions.Timeout *)
| ConnectionFailed                 (* another requests.exceptions.RequestException *)
| Unexpected                       (* any other exception *)
| Replied (r : HttpReply).

Record Request := {
  rq_method : Method;
  rq_url : string;
  rq_content_type : option string;
  rq_query : list (string * PVal);
  rq_body : option (list (string * PVal));
  rq_body_as_json : bool;
  rq_timeout : Z;
}.

(** *** The Docker daemon *)

(** The exceptions of [docker.errors], with [str(e)].  [ImageNotFound]
    is a [NotFound], and a [NotFound] is an [APIError]. *)
Inductive DockerError :=
| NotFound (explanation : string)
| ImageNotFound (explanation : string)
| APIError (explanation : string)
| OtherError (explanation : string).

(** [except docker.errors.NotFound] *)
Definition is_NotFound (e : DockerError) : bool :=
  match e with NotFound _ | ImageNotFound _ => true | _ => false end.

(** [except docker.errors.ImageNotFound] *)
Definition is_ImageNotFound (e : DockerError) : bool :=
  match e with ImageNotFound _ => true | _ => false end.

(** [except docker.errors.APIError] *)
Definition is_APIError (e : DockerError) : bool :=
  match e with OtherError _ => false | _ => true end.

Definition explanation_of (e : DockerError) : string :=
  match e with
  | NotFound m | ImageNotFound m | APIError m | OtherError m => m
  end.

(** A call to the daemon returns or raises. *)
Inductive Raises (A : Type) :=
| Ok (a : A)
| Raise (e : DockerError).
Arguments Ok {A} a.
Arguments Raise {A} e.

(** [container.attrs['Config']], by the keys [stop_and_commit] reads. *)
Record AttrsConfig := {
  Entrypoint : option (list string);
  Cmd : option (list string);
  WorkingDir : option string;
  Env : option (list string);
  ExposedPorts : option (list string);
}.

(** A [docker.models.containers.Container] as [containers.get] built it. *)
Record Container := {
  c_name : string;
  short_id : string;
  status : string;
  attrs_Config : AttrsConfig;
}.

Record Image := {
  tags : list string;
}.

(** The arguments of [containers.run] that vary.  The shell script passed
    as [command] is a function of [run_root_password] and the four
    [run_jupyter_*] values; hostname aside, the other keyword arguments
    are constants. *)
Record RunArgs := {
  run_image : string;
  run_name : string;
  run_hostname : string;
  run_root_password : string;
  run_jupyter_port : Z;
  run_jupyter_token : string;
  run_jupyter_base_url : string;
  run_notebook_dir : string;
  run_environment : list (string * string);
  run_working_dir : string;
}.

Class World (W : Type) := {
  (** [int(time.time())] *)
  time_time : W → Z * W;
  (** [time.strftime("%Y%m%d_%H%M%S")] *)
  time_strftime : W → string * W;
  (** [time.sleep(seconds)] *)
  time_sleep : Z → W → W;
  (** the position [random.choice] picks in a sequence of the given length *)
  random_position : nat → W → nat * W;
  (** [hashlib.md5(text.encode()).hexdigest()] *)
  md5_hexdigest : string → string;
  (** [requests.get] / [requests.post] *)
  requests_send : Request → W → Attempt * W;
  (** [json.dumps] of a list of strings *)
  json_dumps : list string → string;
  (** [client.containers.get(name)] *)
  containers_get : string → W → Raises Container * W;
  (** [client.containers.run(...)] *)
  containers_run : RunArgs → W → Raises Container * W;
  (** [container.stop(timeout=...)]; [None] is the default timeout *)
  container_stop : Container → option Z → W → Raises unit * W;
  (** [container.remove(force=...)] *)
  container_remove : Container → bool → W → Raises unit * W;
  (** [container.reload()] and then
      [container.attrs['NetworkSettings']['Networks']], as the list of
      network names with their [IPAddress] *)
  container_networks : Container → W → Raises (list (string * string)) * W;
  (** [container.commit(repository, tag, message, changes)] *)
  container_commit : Container → string → string → string → list string → W
                     → Raises Image * W;
  (** [client.images.get(tag)] *)
  images_get : string → W → Raises Image * W;
  (** [client.images.remove(tag, force=True)] *)
  images_remove : string → W → Raises unit * W;
}.

(** ** port_manager.py *)

Module PortMgr.

Record PreferRange := {
  pr_start : option Z;             (* r["start"] when the key is there *)
  pr_end : option Z;
}.

Record PortConfig := {
  range_start : Z;                 (* config["port_range"]["start"] *)
  range_end : Z;
  reserved_ports : list Z;
  strategy : string;               (* config["allocation"]["strategy"] *)
  prefer_ranges : list PreferRange;
}.

Record PortInfo := {
  pi_service : string;
  pi_allocated_time : Z;
  pi_client_id : option Z;
}.

Record PortManager := {
  config : PortConfig;
  allocated_ports : gmap Z PortInfo;
  (** content of the persistence file after the last save *)
  persisted_ports : gmap Z PortInfo;
}.

Definition default_port_config : PortConfig :=
  {| range_start := 10000; range_end := 20000;
     reserved_ports := [80; 443; 22; 8080; 8888];
     strategy := "random"; prefer_ranges := [] |}.

Section Methods.
Context {W : Type} {Ops : World W}.

Definition set_allocated (pm : PortManager) (t : gmap Z PortInfo) : PortManager :=
  {| config := config pm; allocated_ports := t;
     persisted_ports := persisted_ports pm |}.

Definition save_allocated_ports (pm : PortManager) : bool * PortManager :=
  (true, {| config := config pm; allocated_ports := allocated_ports pm;
            persisted_ports := allocated_ports pm |}).

(** [sorted(all_ports - reserved_ports - allocated_ports_set)]; a key
    enters [allocated_ports_set] when it [isdigit()]. *)
Definition get_available_ports (pm : PortManager) : list Z :=
  let c := config pm in
  filter (λ p, ¬ (p ∈ reserved_ports c) ∧
               ¬ (is_Some (allocated_ports pm !! p) ∧ 0 ≤ p))
         (seqZ (range_start c) (range_end c + 1 - range_start c)).

Definition is_port_allocated (pm : PortManager) (port : Z) : bool :=
  bool_decide (is_Some (allocated_ports pm !! port)).

Definition _is_port_available (pm : PortManager) (port : Z) : bool :=
  let c := config pm in
  if negb ((range_start c <=? port) && (port <=? range_end c)) then false
  else if Py.in_list port (reserved_ports c) then false
  else if bool_decide (is_Some (allocated_ports pm !! port)) then false
  else true.

(** The method has no [return]: its value is [None]. *)
Definition _mark_port_allocated (pm : PortManager) (port : Z)
    (service_name : string) (client_id : option Z) (w : W)
  : Py.NoneType * PortManager * W :=
  let '(now, w1) := time_time w in
  (Py.PyNone,
   set_allocated pm
     (<[port := {| pi_service := service_name; pi_allocated_time := now;
                   pi_client_id := client_id |}]> (allocated_ports pm)),
   w1).

Definition valid_ranges (l : list PreferRange) : list (Z * Z) :=
  omap (λ r, match pr_start r, pr_end r with
             | Some s, Some e => Some (s, e)
             | _, _ => None
             end) l.

Definition preferred_candidate_ports (ranges : list (Z * Z))
    (available_ports : list Z) : list Z :=
  mbind (M := list) (λ r : Z * Z,
    filter (λ p, fst r ≤ p ∧ p ≤ snd r) available_ports) ranges.

(** [min(seq)] of a sequence with first element [first]. *)
Definition py_min (first : Z) (rest : list Z) : Z := foldl Z.min first rest.

(** [random.choice(seq)] on a non-empty sequence. *)
Definition random_choice (seq : list Z) (w : W) : option Z * W :=
  let '(i, w1) := random_position (length seq) w in
  (seq !! (i mod length seq)%nat, w1).

Definition allocate_port (pm : PortManager) (service_name : string)
    (client_id : option Z) (preferred_port : option Z) (w : W)
  : option Z * PortManager * W :=
  let allocated_port : option Z :=
    match preferred_port with
    | Some p => if _is_port_available pm p then Some p else None
    | None => None
    end in
  let finish (allocated_port : option Z) (w : W) :=
    match allocated_port with
    | Some p =>
        let '(_, pm1, w1) := _mark_port_allocated pm p service_name client_id w in
        let '(_, pm2) := save_allocated_ports pm1 in
        (Some p, pm2, w1)
    | None => (None, pm, w)
    end in
  match allocated_port with
  | Some p => finish (Some p) w
  | None =>
      let available_ports := get_available_ports pm in
      match available_ports with
      | [] => (None, pm, w)
      | first :: rest =>
          if String.eqb (strategy (config pm)) "sequential" then
            finish (Some (py_min first rest)) w
          else if String.eqb (strategy (config pm)) "random" then
            let candidates :=
              preferred_candidate_ports
                (valid_ranges (prefer_ranges (config pm))) available_ports in
            match candidates with
            | _ :: _ => let '(c, w1) := random_choice candidates w in finish c w1
            | [] => let '(c, w1) := random_choice available_ports w in finish c w1
            end
          else finish None w
      end
  end.

Definition release_port (pm : PortManager) (port : Z) : bool * PortManager :=
  match allocated_ports pm !! port with
  | Some _ =>
      let pm1 := set_allocated pm (delete port (allocated_ports pm)) in
      let '(_, pm2) := save_allocated_ports pm1 in
      (true, pm2)
  | None => (false, pm)
  end.

End Methods.

End PortMgr.

(** ** port_manager.py: queries and bulk release

    The table is a finite map, which does not record the insertion
    order of the Python dict: where the source returns a list in that
    order, the model returns it in the order of the map, and only the
    elements of the list are meant. *)

Module PortQueries.
Import PortMgr.







End PortQueries.

(** ** nps_manager.py *)

Module Nps.

Record NPSManager := {
  server_url : string;
  auth_key : string;
  timeout : Z;                     (* config["api"]["timeout"] *)
  retry_count : Z;                 (* config["api"]["retry_count"] *)
  post_content_type : string;
  default_client_id : Z;           (* config["clients"]["default_client_id"], 2 if absent *)
}.

Section Methods.
Context {W : Type} {Ops : World W}.

(** [d.update(data)] *)
Definition dict_update (d data : list (string * PVal)) : list (string * PVal) :=
  foldl (λ acc kv, ODict.set (fst kv) (snd kv) acc) d data.

(** [response.raise_for_status()] raises [HTTPError] on 4xx and 5xx. *)
Definition raises_for_status (r : HttpReply) : bool :=
  (400 <=? status_code r) && (status_code r <? 600).

(** The body of the [try] once a reply passed [raise_for_status]. *)
Definition interpret_reply (r : HttpReply) : Response :=
  if Py.contains "application/json" (content_type r) then
    match json r with
    | JsonOk j => j
    | JsonDecodeError e => status_response 0 ("JSON Decode Error: " ++ e)
    end
  else if (status_code r =? 200) &&
          (Py.contains "success" (Py.lower (text r)) ||
           Py.contains "任务下发成功" (text r)) then
    status_response 1 "Success (interpreted)"
  else
    status_response 0
      ("Non-JSON response or failure: " ++ Py.take 100 (text r) ++ "...").

(** [for attempt in range(self.retry_count)]: [todo] iterations are
    left and [attempt] is the loop variable. *)
Fixpoint send_attempts (self : NPSManager) (rq : Request) (todo : nat)
    (attempt : Z) (w : W) : option Response * W :=
  match todo with
  | O => (None, w)
  | S todo' =>
      let '(a, w1) := requests_send rq w in
      let retry (w : W) :=
        if attempt =? retry_count self - 1 then (None, w)
        else send_attempts self rq todo' (attempt + 1) (time_sleep 1 w) in
      match a with
      | Timeout => retry w1
      | ConnectionFailed => retry w1
      | Unexpected => (None, w1)
      | Replied r =>
          if raises_for_status r then retry w1
          else (Some (interpret_reply r), w1)
      end
  end.

(** The request [_send_request] prepares before its loop; [None] for
    an unsupported method.  [now] is [int(time.time())]. *)
Definition build_request (self : NPSManager) (endpoint : string)
    (data : option (list (string * PVal))) (method : Method) (now : Z)
  : option Request :=
  let url := server_url self ++ "/" ++ endpoint in
  let timestamp := Py.str_of_int now in
  let sign := md5_hexdigest (auth_key self ++ timestamp) in
  let auth_params := [("auth_key", PStr sign); ("timestamp", PStr timestamp)] in
  let json_post := String.eqb (post_content_type self) "application/json" in
  match method with
  | GET =>
      Some {| rq_method := GET; rq_url := url; rq_content_type := None;
              rq_query := match data with
                          | Some ((_ :: _) as d) => dict_update auth_params d
                          | _ => auth_params
                          end;
              rq_body := None; rq_body_as_json := false;
              rq_timeout := timeout self |}
  | POST =>
      Some {| rq_method := POST; rq_url := url;
              rq_content_type :=
                Some (if json_post then "application/json"
                      else "application/x-www-form-urlencoded");
              rq_query := auth_params;
              rq_body := data; rq_body_as_json := json_post;
              rq_timeout := timeout self |}
  | OtherMethod _ => None
  end.

Definition _send_request (self : NPSManager) (endpoint : string)
    (data : option (list (string * PVal))) (method : Method) (w : W)
  : option Response * W :=
  let '(now, w0) := time_time w in
  match build_request self endpoint data method now with
  | None => (None, w0)
  | Some rq => send_attempts self rq (Z.to_nat (retry_count self)) 0 w0
  end.

(** [response is not None and response.get('status') == 1] *)
Definition success (response : option Response) : bool :=
  match response with
  | Some r => bool_decide (r_status r = Some 1)
  | None => false
  end.

Definition list_tunnels (self : NPSManager) (client_id : Z) (w : W)
  : option Response * W :=
  _send_request self "index/gettunnel"
    (Some [("client_id", PInt client_id); ("type", PStr EmptyString);
           ("searchkey", PStr EmptyString); ("offset", PInt 0); ("limit", PInt 100)])
    GET w.

Definition get_tunnel (self : NPSManager) (tunnel_id : Z) (w : W)
  : option Response * W :=
  _send_request self "index/getonetunnel" (Some [("id", PInt tunnel_id)]) GET w.

Definition add_tunnel (self : NPSManager) (client_id : Z) (tunnel_type : string)
    (port : Z) (target remark : string) (w : W) : bool * W :=
  let '(response, w1) :=
    _send_request self "index/add"
      (Some [("type", PStr tunnel_type); ("client_id", PInt client_id);
             ("remark", PStr remark); ("port", PInt port);
             ("target", PStr target)])
      POST w in
  (success response, w1).

(** [kwargs] are [target], [port], [remark]; [None] values are not sent. *)
Definition update_tunnel (self : NPSManager) (tunnel_id : Z)
    (target : option string) (port : option Z) (remark : option string) (w : W)
  : bool * W :=
  let data_to_send : list (string * PVal) :=
    (match target with Some t => [("target", PStr t)] | None => [] end ++
     match port with Some p => [("port", PInt p)] | None => [] end ++
     match remark with Some r => [("remark", PStr r)] | None => [] end ++
     [("id", PInt tunnel_id)])%list in
  let '(response, w1) := _send_request self "index/edit" (Some data_to_send) POST w in
  (success response, w1).

Definition delete_tunnel (self : NPSManager) (tunnel_id : Z) (w : W) : bool * W :=
  let '(response, w1) :=
    _send_request self "index/del" (Some [("id", PInt tunnel_id)]) POST w in
  (success response, w1).

End Methods.

End Nps.

(** ** nps_manager.py: clients, starting and stopping tunnels *)

Module NpsClients.
Import Nps.

(** The keyword arguments [add_client] reads; [None] where the caller
    gave none. *)
Record ClientOptions := {
  config_conn_allow : option PVal;
  compress : option PVal;
  crypt : option PVal;
  rate_limit : option PVal;
  flow_limit : option PVal;
  max_conn : option PVal;
  max_tunnel : option PVal;
  u : option PVal;
  p : option PVal;
}.

Definition no_options : ClientOptions :=
  {| config_conn_allow := None; compress := None; crypt := None; rate_limit := None;
     flow_limit := None; max_conn := None; max_tunnel := None; u := None; p := None |}.

Section Methods.
Context {W : Type} {Ops : World W}.





End Methods.

End NpsClients.

(** ** dynamic_tunnel_manager.py *)

Module Tunnels.

(** A value of [tunnel_mappings]. *)
Record TunnelInfo := {
  ti_port : Z;
  ti_service : string;
  ti_client_id : Z;
  ti_target : string;
  ti_remark : string;
}.

(** The dict [create_tunnel], [get_tunnel_info] and [list_tunnels]
    return: the cached fields and the key ["tunnel_id"]. *)
Record TunnelRec := {
  tunnel_id : option Z;
  info : TunnelInfo;
}.

Record DynamicTunnelManager := {
  nps : Nps.NPSManager;
  port_manager : PortMgr.PortManager;
  tunnel_mappings : list (Z * TunnelInfo);
}.

(** An entry of the [services] argument of [create_service_tunnels]. *)
Record ServiceConfig := {
  sc_name : option string;
  sc_target : option string;
  sc_preferred_port : option Z;
  sc_client_id : option Z;
  sc_remark : option string;
}.

Section Methods.
Context {W : Type} {Ops : World W}.

Definition set_ports (self : DynamicTunnelManager) (pm : PortMgr.PortManager)
  : DynamicTunnelManager :=
  {| nps := nps self; port_manager := pm; tunnel_mappings := tunnel_mappings self |}.

Definition set_mappings (self : DynamicTunnelManager) (m : list (Z * TunnelInfo))
  : DynamicTunnelManager :=
  {| nps := nps self; port_manager := port_manager self; tunnel_mappings := m |}.

(** The [if]/[elif] chain that names a service from remark and target
    (the same in [_load_tunnel_mappings] and [get_tunnel_info]). *)
Definition service_of (remark target : string) : string :=
  if Py.contains "ssh" (Py.lower remark) || Py.contains ":22" target then "ssh"
  else if Py.contains "http" (Py.lower remark) || Py.contains ":80" target
          || Py.contains ":8080" target then "http"
  else if Py.contains "jupyter" (Py.lower remark) || Py.contains ":8888" target
  then "jupyter"
  else if Py.contains "web" (Py.lower remark) then "web"
  else "unknown".

(** [tunnels['rows']] when [tunnels and 'rows' in tunnels and
    tunnels['rows']] holds, no row otherwise. *)
Definition rows_of (tunnels : option Response) : list TunnelRow :=
  match tunnels with
  | Some r => default [] (r_rows r)
  | None => []
  end.

(** One round of the [for tunnel in tunnels['rows']] of
    [_load_tunnel_mappings]. *)
Definition load_row (client_id : Z) (self : DynamicTunnelManager)
    (w : W) (tunnel : TunnelRow) : DynamicTunnelManager * W :=
  let tunnel_id := row_Id tunnel in
  let port := row_Port tunnel in
  let target := default EmptyString (row_TargetStr tunnel) in
  let remark := default EmptyString (row_Remark tunnel) in
  let service := service_of remark target in
  let self1 :=
    set_mappings self
      (ODict.set tunnel_id
         {| ti_port := port; ti_service := service; ti_client_id := client_id;
            ti_target := target; ti_remark := remark |}
         (tunnel_mappings self)) in
  if negb (PortMgr.is_port_allocated (port_manager self1) port) then
    let '(_, pm1, w1) :=
      PortMgr._mark_port_allocated (port_manager self1) port service
        (Some client_id) w in
    (set_ports self1 pm1, w1)
  else (self1, w).

Definition _load_tunnel_mappings (self : DynamicTunnelManager) (w : W)
  : DynamicTunnelManager * W :=
  let client_id := Nps.default_client_id (nps self) in
  let '(tunnels, w1) := Nps.list_tunnels (nps self) client_id w in
  foldl (λ sw tunnel, load_row client_id (fst sw) (snd sw) tunnel)
        (self, w1) (rows_of tunnels).

(** [for attempt in range(3)] of [create_tunnel]; [tunnel_id] is the
    local variable, kept from one round to the next. *)
Fixpoint fetch_tunnel_id (self : DynamicTunnelManager) (client_id port : Z)
    (todo : nat) (tunnel_id : option Z) (w : W) : option Z * W :=
  match todo with
  | O => (tunnel_id, w)
  | S todo' =>
      let '(tunnels, w1) := Nps.list_tunnels (nps self) client_id w in
      let tunnel_id1 :=
        match List.find (λ tunnel, row_Port tunnel =? port) (rows_of tunnels) with
        | Some tunnel => Some (row_Id tunnel)
        | None => tunnel_id
        end in
      if Py.truthy_int tunnel_id1 then (tunnel_id1, w1)
      else fetch_tunnel_id self client_id port todo' tunnel_id1 (time_sleep 1 w1)
  end.

(** [remark], or the generated one when it [is None]. *)
Definition remark_or_default (service_name target : string) (remark : option string)
    (w : W) : string * W :=
  match remark with
  | Some r => (r, w)
  | None =>
      let '(now, w1) := time_time w in
      (service_name ++ "_" ++ target ++ "_" ++ Py.str_of_int now, w1)
  end.

Definition create_tunnel (self : DynamicTunnelManager) (target service_name : string)
    (client_id : option Z) (preferred_port : option Z) (remark : option string)
    (w : W) : option TunnelRec * DynamicTunnelManager * W :=
  let client_id := default (Nps.default_client_id (nps self)) client_id in
  let '(allocated, pm1, w1) :=
    PortMgr.allocate_port (port_manager self) service_name (Some client_id)
      preferred_port w in
  match allocated with
  | None => (None, set_ports self pm1, w1)
  | Some port =>
      let self1 := set_ports self pm1 in
      let '(remark, w2) := remark_or_default service_name target remark w1 in
      let '(result, w3) :=
        Nps.add_tunnel (nps self1) client_id "tcp" port target remark w2 in
      if negb result then
        let '(_, pm2) := PortMgr.release_port (port_manager self1) port in
        (None, set_ports self1 pm2, w3)
      else
        let '(tunnel_id, w4) := fetch_tunnel_id self1 client_id port 3 None w3 in
        let tunnel_info :=
          {| ti_port := port; ti_service := service_name; ti_client_id := client_id;
             ti_target := target; ti_remark := remark |} in
        if negb (Py.truthy_int tunnel_id) then
          (Some {| tunnel_id := None; info := tunnel_info |}, self1, w4)
        else
          match tunnel_id with
          | Some id =>
              (Some {| tunnel_id := Some id; info := tunnel_info |},
               set_mappings self1 (ODict.set id tunnel_info (tunnel_mappings self1)),
               w4)
          | None => (Some {| tunnel_id := None; info := tunnel_info |}, self1, w4)
          end
  end.

Definition delete_tunnel (self : DynamicTunnelManager) (tunnel_id : Z) (w : W)
  : bool * DynamicTunnelManager * W :=
  match ODict.get tunnel_id (tunnel_mappings self) with
  | None =>
      let '(result, w1) := Nps.delete_tunnel (nps self) tunnel_id w in
      (result, self, w1)
  | Some tunnel_info =>
      let '(result, w1) := Nps.delete_tunnel (nps self) tunnel_id w in
      if negb result then (false, self, w1)
      else
        let '(_, pm1) := PortMgr.release_port (port_manager self) (ti_port tunnel_info) in
        (true,
         set_mappings (set_ports self pm1) (ODict.del tunnel_id (tunnel_mappings self)),
         w1)
  end.

Definition update_tunnel (self : DynamicTunnelManager) (tunnel_id : Z)
    (target : option string) (port : option Z) (remark : option string) (w : W)
  : bool * DynamicTunnelManager * W :=
  match ODict.get tunnel_id (tunnel_mappings self) with
  | None => (false, self, w)
  | Some tunnel_info =>
      let old_port := ti_port tunnel_info in
      let service_name := ti_service tunnel_info in
      let client_id := ti_client_id tunnel_info in
      let old_target := ti_target tunnel_info in
      let old_remark := ti_remark tunnel_info in
      let final_target := default old_target target in
      let final_port := default old_port port in
      let final_remark := default old_remark remark in
      if String.eqb final_target old_target && (final_port =? old_port)
         && String.eqb final_remark old_remark
      then (true, self, w)
      else
        (* from [result = self.nps.update_tunnel(...)] to the end *)
        let finish (allocated_new_port : bool) (final_port : Z)
            (self : DynamicTunnelManager) (w : W) :=
          let '(result, w1) :=
            Nps.update_tunnel (nps self) tunnel_id
              (match target with Some _ => Some final_target | None => None end)
              (match port with Some _ => Some final_port | None => None end)
              (match remark with Some _ => Some final_remark | None => None end)
              w in
          if negb result then
            if allocated_new_port then
              let '(_, pm1) :=
                PortMgr.release_port (port_manager self) (default old_port port) in
              (false, set_ports self pm1, w1)
            else (false, self, w1)
          else
            let '(self1, info1) :=
              if allocated_new_port then
                let '(_, pm1) := PortMgr.release_port (port_manager self) old_port in
                (set_ports self pm1,
                 {| ti_port := final_port; ti_service := ti_service tunnel_info;
                    ti_client_id := ti_client_id tunnel_info;
                    ti_target := ti_target tunnel_info;
                    ti_remark := ti_remark tunnel_info |})
              else (self, tunnel_info) in
            let info2 :=
              match target with
              | Some _ =>
                  {| ti_port := ti_port info1; ti_service := ti_service info1;
                     ti_client_id := ti_client_id info1;
                     ti_target := final_target; ti_remark := ti_remark info1 |}
              | None => info1
              end in
            let info3 :=
              match remark with
              | Some _ =>
                  {| ti_port := ti_port info2; ti_service := ti_service info2;
                     ti_client_id := ti_client_id info2;
                     ti_target := ti_target info2; ti_remark := final_remark |}
              | None => info2
              end in
            (true,
             set_mappings self1 (ODict.set tunnel_id info3 (tunnel_mappings self1)),
             w1) in
        match port with
        | Some p =>
            if negb (p =? old_port) then
              if negb (PortMgr._is_port_available (port_manager self) p)
              then (false, self, w)
              else
                let '(marked, pm1, w1) :=
                  PortMgr._mark_port_allocated (port_manager self) p service_name
                    (Some client_id) w in
                if negb (Py.truthy_none marked) then (false, set_ports self pm1, w1)
                else finish true p (set_ports self pm1) w1
            else finish false final_port self w
        | None => finish false final_port self w
        end
  end.

Definition get_tunnel_info (self : DynamicTunnelManager) (tunnel_id : Z) (w : W)
  : option TunnelRec * DynamicTunnelManager * W :=
  match ODict.get tunnel_id (tunnel_mappings self) with
  | Some cached => (Some {| tunnel_id := Some tunnel_id; info := cached |}, self, w)
  | None =>
      let '(tunnel_info, w1) := Nps.get_tunnel (nps self) tunnel_id w in
      match tunnel_info with
      | Some r =>
          if bool_decide (r_code r = Some 1) then
            match r_data r with
            | Some data =>
                match td_Id data, td_Port data, td_ClientId data with
                | Some _, Some port, Some client_id =>
                    let target := default EmptyString (td_TargetStr data) in
                    let remark := default EmptyString (td_Remark data) in
                    let service := service_of remark target in
                    let fetched :=
                      {| ti_port := port; ti_service := service;
                         ti_client_id := client_id; ti_target := target;
                         ti_remark := remark |} in
                    let self1 :=
                      set_mappings self
                        (ODict.set tunnel_id fetched (tunnel_mappings self)) in
                    let '(self2, w2) :=
                      if negb (PortMgr.is_port_allocated (port_manager self1) port)
                      then
                        let '(_, pm1, w2) :=
                          PortMgr._mark_port_allocated (port_manager self1) port
                            service (Some client_id) w1 in
                        (set_ports self1 pm1, w2)
                      else (self1, w1) in
                    (Some {| tunnel_id := Some tunnel_id; info := fetched |}, self2, w2)
                | _, _, _ => (None, self, w1)
                end
            | None => (None, self, w1)
            end
          else (None, self, w1)
      | None => (None, self, w1)
      end
  end.

Definition list_tunnels (self : DynamicTunnelManager) (client_id : option Z)
    (service : option string) : list TunnelRec :=
  omap (λ kv : Z * TunnelInfo,
          let '(tunnel_id, info) := kv in
          if match client_id with
             | Some c => negb (ti_client_id info =? c)
             | None => false
             end then None
          else if match service with
                  | Some s => negb (String.eqb (ti_service info) s)
                  | None => false
                  end then None
          else Some {| tunnel_id := Some tunnel_id; info := info |})
       (tunnel_mappings self).

Definition find_port_by_service (self : DynamicTunnelManager) (service_name : string)
    (client_id : option Z) : list Z :=
  map (λ t, ti_port (info t)) (list_tunnels self client_id (Some service_name)).

(** One round of the [for service_config in services] of
    [create_service_tunnels]. *)
Definition create_service_tunnel (acc : list (string * TunnelRec) * DynamicTunnelManager * W)
    (service_config : ServiceConfig)
  : list (string * TunnelRec) * DynamicTunnelManager * W :=
  let '(result, self, w) := acc in
  if negb (Py.truthy_str (sc_name service_config))
     || negb (Py.truthy_str (sc_target service_config))
  then acc
  else
    let name := default EmptyString (sc_name service_config) in
    let target := default EmptyString (sc_target service_config) in
    let '(tunnel, self1, w1) :=
      create_tunnel self target name (sc_client_id service_config)
        (sc_preferred_port service_config) (sc_remark service_config) w in
    match tunnel with
    | Some t => (ODict.set name t result, self1, w1)
    | None => (result, self1, w1)
    end.

Definition create_service_tunnels (self : DynamicTunnelManager)
    (services : list ServiceConfig) (w : W)
  : list (string * TunnelRec) * DynamicTunnelManager * W :=
  foldl create_service_tunnel ([], self, w) services.

(** One round of the [for tunnel in tunnels_to_delete] of
    [clear_service_tunnels]. *)
Definition clear_one (acc : Z * DynamicTunnelManager * W) (tunnel : TunnelRec)
  : Z * DynamicTunnelManager * W :=
  let '(count, self, w) := acc in
  if Py.truthy_int (tunnel_id tunnel) then
    match tunnel_id tunnel with
    | Some id =>
        let '(deleted, self1, w1) := delete_tunnel self id w in
        if deleted then (count + 1, self1, w1) else (count, self1, w1)
    | None => acc
    end
  else acc.

Definition clear_service_tunnels (self : DynamicTunnelManager) (service_name : string)
    (client_id : option Z) (w : W) : Z * DynamicTunnelManager * W :=
  let tunnels_to_delete := list_tunnels self client_id (Some service_name) in
  foldl clear_one (0, self, w) tunnels_to_delete.

Definition cleanup (self : DynamicTunnelManager) : DynamicTunnelManager :=
  let '(_, pm1) := PortMgr.save_allocated_ports (port_manager self) in
  set_ports self pm1.

End Methods.

End Tunnels.

(** ** container_manager.py *)

Module Containers.

(** The keys of [config.json] the manager reads; [None] is an absent key. *)
Record Config := {
  cfg_hostname : option string;
  cfg_ssh_port : option Z;
  cfg_ssh_root_password : option string;
  cfg_jupyter_port : option Z;
  cfg_jupyter_token : option string;
  cfg_jupyter_base_url : option string;
  cfg_jupyter_notebook_dir : option string;
  cfg_app_port : option Z;
}.

(** The [container_config] argument of [create_container]. *)
Record ContainerConfig := {
  root_password : option string;
  jupyter_token : option string;
  jupyter_base_url : option string;
  jupyter_dir : option string;
}.

Definition no_container_config : ContainerConfig :=
  {| root_password := None; jupyter_token := None;
     jupyter_base_url := None; jupyter_dir := None |}.

(** Content of [image_mapping_file]. *)
Record ImageFile := {
  file_current : gmap string string;
  file_history : gmap string (list string);
}.

Record DockerContainerManager := {
  CONFIG : Config;
  tunnel_manager : Tunnels.DynamicTunnelManager;
  container_images : gmap string string;
  image_history : gmap string (list string);
  max_history_per_container : Z;
  container_tunnels : gmap string (list (string * Tunnels.TunnelRec));
  (** the two state files; [None] when the file is missing or unreadable *)
  image_mapping_file : option ImageFile;
  container_state_file : option (gmap string (list (string * Tunnels.TunnelRec)));
}.

(** Exceptions that leave a method of the manager. *)
Inductive PyException :=
| UnboundLocalError (variable : string).

Inductive Outcome (A : Type) :=
| Returned (a : A)
| Raised (e : PyException).
Arguments Returned {A} a.
Arguments Raised {A} e.

(** [bool(docker.errors.NotFound)]: a class object is truthy. *)
Definition NotFound_class_truthy : bool := true.

Section Methods.
Context {W : Type} {Ops : World W}.

Definition set_tunnel_manager (self : DockerContainerManager)
    (tm : Tunnels.DynamicTunnelManager) : DockerContainerManager :=
  {| CONFIG := CONFIG self; tunnel_manager := tm;
     container_images := container_images self;
     image_history := image_history self;
     max_history_per_container := max_history_per_container self;
     container_tunnels := container_tunnels self;
     image_mapping_file := image_mapping_file self;
     container_state_file := container_state_file self |}.

Definition set_images (self : DockerContainerManager)
    (images : gmap string string) (history : gmap string (list string))
  : DockerContainerManager :=
  {| CONFIG := CONFIG self; tunnel_manager := tunnel_manager self;
     container_images := images; image_history := history;
     max_history_per_container := max_history_per_container self;
     container_tunnels := container_tunnels self;
     image_mapping_file := image_mapping_file self;
     container_state_file := container_state_file self |}.

Definition set_container_tunnels (self : DockerContainerManager)
    (t : gmap string (list (string * Tunnels.TunnelRec))) : DockerContainerManager :=
  {| CONFIG := CONFIG self; tunnel_manager := tunnel_manager self;
     container_images := container_images self;
     image_history := image_history self;
     max_history_per_container := max_history_per_container self;
     container_tunnels := t;
     image_mapping_file := image_mapping_file self;
     container_state_file := container_state_file self |}.

Definition _load_container_images (self : DockerContainerManager)
  : DockerContainerManager :=
  match image_mapping_file self with
  | Some data => set_images self (file_current data) (file_history data)
  | None => self
  end.

Definition _save_container_images (self : DockerContainerManager)
  : DockerContainerManager :=
  {| CONFIG := CONFIG self; tunnel_manager := tunnel_manager self;
     container_images := container_images self;
     image_history := image_history self;
     max_history_per_container := max_history_per_container self;
     container_tunnels := container_tunnels self;
     image_mapping_file :=
       Some {| file_current := container_images self;
               file_history := image_history self |};
     container_state_file := container_state_file self |}.

Definition _save_container_states (self : DockerContainerManager)
  : DockerContainerManager :=
  {| CONFIG := CONFIG self; tunnel_manager := tunnel_manager self;
     container_images := container_images self;
     image_history := image_history self;
     max_history_per_container := max_history_per_container self;
     container_tunnels := container_tunnels self;
     image_mapping_file := image_mapping_file self;
     container_state_file := Some (container_tunnels self) |}.

Definition _get_container_ip (container_name_or_id : string) (w : W)
  : option string * W :=
  let '(got, w1) := containers_get container_name_or_id w in
  match got with
  | Raise _ => (None, w1)
  | Ok container =>
      let '(networks, w2) := container_networks container w1 in
      match networks with
      | Raise _ => (None, w2)
      | Ok ((_, ip_address) :: _) =>
          if negb (String.eqb ip_address EmptyString) then (Some ip_address, w2) else (None, w2)
      | Ok [] => (None, w2)
      end
  end.

(** One round of the [for image_tag in images_to_remove] of
    [_cleanup_old_images]; only the calls to the daemon matter. *)
Definition cleanup_image (w : W) (image_tag : string) : W :=
  let '(found, w1) := images_get image_tag w in
  match found with
  | Ok _ => snd (images_remove image_tag w1)
  | Raise _ => w1
  end.

Definition _cleanup_old_images (self : DockerContainerManager)
    (container_name : string) (w : W) : DockerContainerManager * W :=
  match image_history self !! container_name with
  | None => (self, w)
  | Some history =>
      let max_history := Z.to_nat (Z.max 1 (max_history_per_container self)) in
      if (max_history <? length history)%nat then
        let images_to_remove := take (length history - max_history) history in
        let w1 := foldl cleanup_image w images_to_remove in
        let self1 :=
          set_images self (container_images self)
            (<[container_name := drop (length history - max_history) history]>
               (image_history self)) in
        (_save_container_images self1, w1)
      else (self, w)
  end.

Definition get_container_ports (self : DockerContainerManager) (name : string)
  : option (list (string * Z)) :=
  match container_tunnels self !! name with
  | Some tunnels =>
      let ports_info :=
        foldl (λ acc st, ODict.set (fst st ++ "_port")
                           (Tunnels.ti_port (Tunnels.info (snd st))) acc)
              [] tunnels in
      match ports_info with [] => None | _ => Some ports_info end
  | None => None
  end.

(** [for service, tunnel_info in tunnels.items()]: delete every tunnel
    that has an id; the result tells whether no deletion failed. *)
Fixpoint delete_tunnels (tm : Tunnels.DynamicTunnelManager)
    (tunnels : list (string * Tunnels.TunnelRec)) (all_deleted : bool) (w : W)
  : bool * Tunnels.DynamicTunnelManager * W :=
  match tunnels with
  | [] => (all_deleted, tm, w)
  | (service, tunnel_info) :: rest =>
      match Tunnels.tunnel_id tunnel_info with
      | Some tunnel_id =>
          let '(deleted, tm1, w1) := Tunnels.delete_tunnel tm tunnel_id w in
          delete_tunnels tm1 rest (if deleted then all_deleted else false) w1
      | None => delete_tunnels tm rest all_deleted w
      end
  end.

Definition stop_container (self : DockerContainerManager) (name : string) (w : W)
  : bool * DockerContainerManager * W :=
  let '(container, w1) :=
    let '(got, w1) := containers_get name w in
    match got with
    | Ok c => (Some c, snd (container_stop c (Some 10) w1))
    | Raise _ => (None, w1)
    end in
  let '(tunnel_cleanup_success, self1, w2) :=
    match container_tunnels self !! name with
    | Some tunnels_to_delete =>
        let self1 :=
          _save_container_states
            (set_container_tunnels self (delete name (container_tunnels self))) in
        let '(ok, tm1, w2) :=
          delete_tunnels (tunnel_manager self1) tunnels_to_delete true w1 in
        (ok, set_tunnel_manager self1 tm1, w2)
    | None => (true, self, w1)
    end in
  ((bool_decide (is_Some container) || negb NotFound_class_truthy)
   && tunnel_cleanup_success,
   self1, w2).

(** The three services, in the order of the dict literal
    [services_to_tunnel], with their ports inside the container. *)
Definition services_to_tunnel (self : DockerContainerManager) : list (string * Z) :=
  [("ssh", default 22 (cfg_ssh_port (CONFIG self)));
   ("jupyter", default 8888 (cfg_jupyter_port (CONFIG self)));
   ("app", default 5000 (cfg_app_port (CONFIG self)))].

(** [for service_name, internal_port in services_to_tunnel.items()] of
    [create_container].  The result carries [created_tunnels],
    [ports_info] and [tunnel_creation_failed]. *)
Fixpoint create_tunnels (name container_ip : string) (services : list (string * Z))
    (created_tunnels : list (string * Tunnels.TunnelRec))
    (ports_info : list (string * Z)) (tunnel_creation_failed : bool)
    (tm : Tunnels.DynamicTunnelManager) (w : W)
  : list (string * Tunnels.TunnelRec) * list (string * Z) * bool
    * Tunnels.DynamicTunnelManager * W :=
  match services with
  | [] => (created_tunnels, ports_info, tunnel_creation_failed, tm, w)
  | (service_name, internal_port) :: rest =>
      let target := container_ip ++ ":" ++ Py.str_of_int internal_port in
      let remark := "Container:" ++ name ++ "_Service:" ++ service_name in
      let '(tunnel_info, tm1, w1) :=
        Tunnels.create_tunnel tm target service_name None None (Some remark) w in
      match tunnel_info with
      | Some t =>
          create_tunnels name container_ip rest
            (ODict.set service_name t created_tunnels)
            (ODict.set (service_name ++ "_port") (Tunnels.ti_port (Tunnels.info t))
               ports_info)
            tunnel_creation_failed tm1 w1
      | None =>
          if String.eqb service_name "ssh" then
            (created_tunnels, ports_info, true, tm1, w1)
          else
            create_tunnels name container_ip rest created_tunnels ports_info true tm1 w1
      end
  end.

(** [container.stop(timeout=5); container.remove()] inside one [try]. *)
Definition stop_and_remove (container : Container) (w : W) : W :=
  let '(stopped, w1) := container_stop container (Some 5) w in
  match stopped with
  | Ok _ => snd (container_remove container false w1)
  | Raise _ => w1
  end.

(** The branch [if tunnel_creation_failed] of [create_container]. *)
Definition rollback (self : DockerContainerManager) (name : string)
    (container : Container) (created_tunnels : list (string * Tunnels.TunnelRec))
    (w : W) : DockerContainerManager * W :=
  let '(_, tm1, w1) := delete_tunnels (tunnel_manager self) created_tunnels true w in
  let w2 := stop_and_remove container w1 in
  let self1 := set_tunnel_manager self tm1 in
  let self2 :=
    _save_container_images
      (set_images self1 (delete name (container_images self1))
         (delete name (image_history self1))) in
  let self3 :=
    _save_container_states
      (set_container_tunnels self2 (delete name (container_tunnels self2))) in
  (self3, w2).

(** The text searched in [str(e)] by the [APIError] handler; the
    literal is not an f-string. *)
Definition already_in_use : string :=
  "container with name " ++ String (ascii_of_nat 92) (String (ascii_of_nat 34)
  ("/{name}" ++ String (ascii_of_nat 92) (String (ascii_of_nat 34)
  " is already in use"))).

(** The configuration [create_container] resolves, as passed to
    [containers.run]. *)
Definition run_args (self : DockerContainerManager) (image name : string)
    (container_config : option ContainerConfig) : RunArgs :=
  let default_config := CONFIG self in
  let container_config := default no_container_config container_config in
  let notebook_dir :=
    default (default "/root" (cfg_jupyter_notebook_dir default_config))
            (jupyter_dir container_config) in
  let ssh_root_password :=
    default (default "password" (cfg_ssh_root_password default_config))
            (root_password container_config) in
  let jupyter_port := default 8888 (cfg_jupyter_port default_config) in
  let token :=
    default (default EmptyString (cfg_jupyter_token default_config))
            (jupyter_token container_config) in
  let base_url :=
    default (default "/jupyter" (cfg_jupyter_base_url default_config))
            (jupyter_base_url container_config) in
  {| run_image := image; run_name := name;
     run_hostname := default "origincloud" (cfg_hostname default_config);
     run_root_password := ssh_root_password;
     run_jupyter_port := jupyter_port;
     run_jupyter_token := token;
     run_jupyter_base_url := base_url;
     run_notebook_dir := notebook_dir;
     run_environment :=
       [("JUPYTER_PORT", Py.str_of_int jupyter_port);
        ("JUPYTER_TOKEN", token);
        ("JUPYTER_BASE_URL", base_url);
        ("ROOT_PASSWORD", ssh_root_password)];
     run_working_dir := notebook_dir |}.

Definition create_container (self : DockerContainerManager) (image name : string)
    (container_config : option ContainerConfig) (w : W)
  : option (list (string * Z)) * DockerContainerManager * W :=
  let '(existing_container, w0) := containers_get name w in
  match existing_container with
  | Ok _ => (get_container_ports self name, self, w0)
  | Raise e =>
      if negb (is_NotFound e) then (None, self, w0)
      else
        let args := run_args self image name container_config in
        let '(ran, w1) := containers_run args w0 in
        match ran with
        | Raise e =>
            if is_ImageNotFound e then (None, self, w1)
            else if is_APIError e then
              if Py.contains already_in_use (explanation_of e)
              then (get_container_ports self name, self, w1)
              else (None, self, w1)
            else
              (* [cont = get(name); cont.stop(); cont.remove()], errors ignored *)
              let '(cont, w2) := containers_get name w1 in
              match cont with
              | Ok c =>
                  let '(stopped, w3) := container_stop c None w2 in
                  match stopped with
                  | Ok _ => (None, self, snd (container_remove c false w3))
                  | Raise _ => (None, self, w3)
                  end
              | Raise _ => (None, self, w2)
              end
        | Ok container =>
            let self1 :=
              _save_container_images
                (set_images self (<[name := image]> (container_images self))
                   (<[name := (default [] (image_history self !! name) ++ [image])%list]>
                      (image_history self))) in
            let w2 := time_sleep 5 w1 in
            let '(container_ip, w3) := _get_container_ip name w2 in
            match container_ip with
            | None => (None, self1, stop_and_remove container w3)
            | Some container_ip =>
                let '(created_tunnels, ports_info, tunnel_creation_failed, tm1, w4) :=
                  create_tunnels name container_ip (services_to_tunnel self1)
                    [] [] false (tunnel_manager self1) w3 in
                let self2 := set_tunnel_manager self1 tm1 in
                if tunnel_creation_failed then
                  let '(self3, w5) := rollback self2 name container created_tunnels w4 in
                  (None, self3, w5)
                else
                  let self3 :=
                    _save_container_states
                      (set_container_tunnels self2
                         (<[name := created_tunnels]> (container_tunnels self2))) in
                  (Some ports_info, self3, w4)
            end
        end
  end.

(** One round of the [for image_tag in images_to_remove] of
    [remove_container]; the result counts the failures. *)
Definition remove_snapshot (acc : Z * W) (image_tag : string) : Z * W :=
  let '(failed_count, w) := acc in
  let '(removed, w1) := images_remove image_tag w in
  match removed with
  | Ok _ => (failed_count, w1)
  | Raise e => if is_ImageNotFound e then (failed_count, w1) else (failed_count + 1, w1)
  end.

Definition remove_container (self : DockerContainerManager) (name : string)
    (remove_snapshots : bool) (w : W) : bool * DockerContainerManager * W :=
  (* first [try]: look the container up, stop it when it runs *)
  let '(container_exists, container, self1, w1) :=
    let '(got, w1) := containers_get name w in
    match got with
    | Ok c =>
        if String.eqb (status c) "running" then
          let '(_, self1, w2) := stop_container self name w1 in
          (true, Some c, self1, w2)
        else (true, Some c, self, w1)
    | Raise e =>
        if is_NotFound e then
          match container_tunnels self !! name with
          | Some tunnels_to_delete =>
              let self1 :=
                _save_container_states
                  (set_container_tunnels self (delete name (container_tunnels self))) in
              let '(_, tm1, w2) :=
                delete_tunnels (tunnel_manager self1) tunnels_to_delete true w1 in
              (false, None, set_tunnel_manager self1 tm1, w2)
          | None => (false, None, self, w1)
          end
        else (true, None, self, w1)
    end in
  (* second [try]: remove it *)
  let '(remove_success, w2) :=
    match container_exists, container with
    | true, Some c =>
        let '(removed, w2) := container_remove c true w1 in
        match removed with
        | Ok _ => (true, w2)
        | Raise e => (is_NotFound e, w2)
        end
    | true, None => (false, w1)
    | false, _ => (true, w1)
    end in
  let '(image_record_cleaned, self2) :=
    match container_images self1 !! name with
    | Some _ =>
        (true,
         _save_container_images
           (set_images self1 (delete name (container_images self1))
              (image_history self1)))
    | None => (false, self1)
    end in
  let '(snapshot_cleaned, self3, w3) :=
    if remove_snapshots then
      match image_history self2 !! name with
      | Some images_to_remove =>
          let self3 :=
            _save_container_images
              (set_images self2 (container_images self2)
                 (delete name (image_history self2))) in
          let '(failed_count, w3) := foldl remove_snapshot (0, w2) images_to_remove in
          (failed_count =? 0, self3, w3)
      | None => (true, self2, w2)
      end
    else (true, self2, w2) in
  let self4 :=
    match container_tunnels self3 !! name with
    | Some _ =>
        _save_container_states
          (set_container_tunnels self3 (delete name (container_tunnels self3)))
    | None => self3
    end in
  let tunnel_record_cleaned :=
    negb (bool_decide (is_Some (container_tunnels self4 !! name))) in
  (remove_success && snapshot_cleaned && image_record_cleaned && tunnel_record_cleaned,
   self4, w3).

(** The [changes] list of [stop_and_commit]. *)
Definition commit_changes (config : AttrsConfig) : list string :=
  (match Entrypoint config with
   | Some ((_ :: _) as e) => [("ENTRYPOINT " ++ json_dumps e)%string]
   | _ => []
   end ++
   match Cmd config with
   | Some ((_ :: _) as c) => [("CMD " ++ json_dumps c)%string]
   | _ => []
   end ++
   (if Py.truthy_str (WorkingDir config)
    then [("WORKDIR " ++ default EmptyString (WorkingDir config))%string] else []) ++
   map (λ env_str, ("ENV " ++ env_str)%string)
     (filter (λ env_str, negb (Py.startswith env_str "JUPYTER_PORT=")
                         && negb (Py.startswith env_str "APP_PORT="))
        (default [] (Env config))) ++
   map (λ port_proto, ("EXPOSE " ++ port_proto)%string) (default [] (ExposedPorts config))
  )%list.

(** [stop_and_commit] from [self._load_container_images()] on.
    [timestamp] is the local variable of that name: [None] while no
    assignment to it was executed. *)
Definition commit_stopped (self : DockerContainerManager) (name : string)
    (commit_message : option string) (container : Container)
    (timestamp : option string) (w : W)
  : Outcome (option string) * DockerContainerManager * W :=
  let self1 := _load_container_images self in
  let version := Z.of_nat (length (default [] (image_history self1 !! name))) + 1 in
  let new_image_tag_base := name in
  match timestamp with
  | None => (Raised (UnboundLocalError "timestamp"), self1, w)
  | Some timestamp =>
      let new_image_tag_version := "v" ++ Py.str_of_int version ++ "_" ++ timestamp in
      let changes := commit_changes (attrs_Config container) in
      let message :=
        if Py.truthy_str commit_message then default EmptyString commit_message
        else "Snapshot v" ++ Py.str_of_int version ++ " for " ++ name
             ++ " at " ++ timestamp in
      let '(committed, w1) :=
        container_commit container new_image_tag_base new_image_tag_version
          message changes w in
      match committed with
      | Raise _ => (Returned None, self1, w1)
      | Ok new_image =>
          let final_image_tag :=
            match tags new_image with
            | first :: _ => first
            | [] => new_image_tag_base ++ ":" ++ new_image_tag_version
            end in
          let self2 :=
            _save_container_images
              (set_images self1 (<[name := final_image_tag]> (container_images self1))
                 (<[name := (default [] (image_history self1 !! name)
                             ++ [final_image_tag])%list]>
                    (image_history self1))) in
          let w2 := snd (container_remove container false w1) in
          let '(self3, w3) := _cleanup_old_images self2 name w2 in
          (Returned (Some final_image_tag), self3, w3)
      end
  end.

Definition stop_and_commit (self : DockerContainerManager) (name : string)
    (commit_message : option string) (w : W)
  : Outcome (option string) * DockerContainerManager * W :=
  let '(got, w1) := containers_get name w in
  match got with
  | Raise _ => (Returned None, self, w1)
  | Ok container =>
      let '(stopped, self1, w2) := stop_container self name w1 in
      if negb stopped then
        (* [return None]; the assignment [timestamp = time.strftime(...)]
           that follows it in this block is never executed *)
        (Returned None, self1, w2)
      else commit_stopped self1 name commit_message container None w2
  end.

(** [tag.split(':')[-1]] *)
Definition tag_part (tag : string) : string := Py.split_last ":" tag.

(** The test of the [for tag in reversed(available_versions)] loop. *)
Definition version_matches (version_tag tag : string) : bool :=
  String.eqb version_tag tag || Py.contains version_tag (tag_part tag).

(** [image_tag_to_use] as [start_from_snapshot] computes it; [None]
    where the method returns [None] before it has an image. *)
Definition image_tag_to_use (available_versions : list string)
    (version_tag : option string) : option string :=
  match available_versions with
  | [] => None
  | _ :: _ =>
      match version_tag with
      | None => last available_versions
      | Some version_tag =>
          List.find (version_matches version_tag) (rev available_versions)
      end
  end.

Definition start_from_snapshot (self : DockerContainerManager) (name : string)
    (version_tag : option string) (w : W)
  : option (list (string * Z)) * DockerContainerManager * W :=
  let self1 := _load_container_images self in
  let available_versions := default [] (image_history self1 !! name) in
  match image_tag_to_use available_versions version_tag with
  | None => (None, self1, w)
  | Some image_tag =>
      let '(image, w1) := images_get image_tag w in
      match image with
      | Raise _ => (None, self1, w1)
      | Ok _ =>
          let '(existing_container, w2) := containers_get name w1 in
          let proceed (self : DockerContainerManager) (w : W) :=
            create_container self image_tag name None w in
          match existing_container with
          | Ok _ =>
              let '(removed, self2, w3) := remove_container self1 name false w2 in
              if negb removed then (None, self2, w3) else proceed self2 w3
          | Raise e =>
              if is_NotFound e then
                match container_tunnels self1 !! name with
                | Some tunnels_to_delete =>
                    let self2 :=
                      _save_container_states
                        (set_container_tunnels self1
                           (delete name (container_tunnels self1))) in
                    let '(_, tm1, w3) :=
                      delete_tunnels (tunnel_manager self2) tunnels_to_delete true w2 in
                    proceed (set_tunnel_manager self2 tm1) w3
                | None => proceed self1 w2
                end
              else proceed self1 w2
          end
      end
  end.

End Methods.

End Containers.

(** ** Simulated worlds

    Two worlds to run the code in: a broker and a Docker daemon that
    keep their tables and misbehave where [Faults] says so, and a
    transport that plays a fixed script of outcomes. *)

Module Sim.

Record Faults := {
  refuse_add_to : list string;     (* targets for which index/add answers status 0 *)
  refuse_del_of : list Z;          (* tunnel ids for which index/del answers status 0 *)
  hide_rows : bool;                (* index/gettunnel answers without any row *)
  no_address : bool;               (* the daemon reports no network for a container *)
  stop_raises : bool;              (* container.stop raises an APIError *)
}.

Definition no_faults : Faults :=
  {| refuse_add_to := []; refuse_del_of := []; hide_rows := false;
     no_address := false; stop_raises := false |}.

Record State := {
  clock : Z;
  broker_rows : list TunnelRow;
  next_id : Z;
  containers : list Container;
  images : list string;
  endpoints_called : list string;  (* URL of every HTTP request, latest first *)
}.

Definition json_reply (r : Response) : Attempt :=
  Replied {| status_code := 200; content_type := "application/json; charset=utf-8";
             text := EmptyString; json := JsonOk r |}.

Definition int_param (k : string) (body : option (list (string * PVal))) : Z :=
  match ODict.get k (default [] body) with
  | Some (PInt z) => z
  | _ => 0
  end.

Definition str_param (k : string) (body : option (list (string * PVal))) : string :=
  match ODict.get k (default [] body) with
  | Some (PStr s) => s
  | _ => EmptyString
  end.

Definition with_broker (st : State) (rows : list TunnelRow) (next : Z) (url : string)
  : State :=
  {| clock := clock st; broker_rows := rows; next_id := next;
     containers := containers st; images := images st;
     endpoints_called := url :: endpoints_called st |}.

Definition with_docker (st : State) (cs : list Container) (imgs : list string) : State :=
  {| clock := clock st; broker_rows := broker_rows st; next_id := next_id st;
     containers := cs; images := imgs; endpoints_called := endpoints_called st |}.

Definition broker (f : Faults) (rq : Request) (st : State) : Attempt * State :=
  let url := rq_url rq in
  let seen := with_broker st (broker_rows st) (next_id st) url in
  if Py.endswith url "index/add" then
    if bool_decide (str_param "target" (rq_body rq) ∈ refuse_add_to f) then
      (json_reply (status_response 0 "add refused"), seen)
    else
      (json_reply (status_response 1 "add success"),
       with_broker st
         (broker_rows st ++
          [{| row_Id := next_id st; row_Port := int_param "port" (rq_body rq);
              row_TargetStr := Some (str_param "target" (rq_body rq));
              row_Remark := Some (str_param "remark" (rq_body rq)) |}])
         (next_id st + 1) url)
  else if Py.endswith url "index/gettunnel" then
    (json_reply {| r_status := None; r_msg := None;
                   r_rows := Some (if hide_rows f then [] else broker_rows st);
                   r_code := None; r_data := None |}, seen)
  else if Py.endswith url "index/del" then
    if bool_decide (int_param "id" (rq_body rq) ∈ refuse_del_of f) then
      (json_reply (status_response 0 "del refused"), seen)
    else
      (json_reply (status_response 1 "del success"),
       with_broker st
         (filter (λ r, row_Id r ≠ int_param "id" (rq_body rq)) (broker_rows st))
         (next_id st) url)
  else (json_reply (status_response 1 "success"), seen).

Definition find_container (name : string) (st : State) : option Container :=
  List.find (λ c, String.eqb (c_name c) name) (containers st).

Definition without_container (name : string) (st : State) : list Container :=
  filter (λ c, c_name c ≠ name) (containers st).

Definition no_attrs : AttrsConfig :=
  {| Entrypoint := None; Cmd := None; WorkingDir := None; Env := None;
     ExposedPorts := None |}.

#[export] Instance world (f : Faults) : World State := {|
  time_time st := (clock st, st);
  time_strftime st := ("20240101_000000", st);
  time_sleep n st :=
    {| clock := clock st + n; broker_rows := broker_rows st; next_id := next_id st;
       containers := containers st; images := images st;
       endpoints_called := endpoints_called st |};
  random_position n st := (0%nat, st);
  md5_hexdigest s := s;
  requests_send := broker f;
  json_dumps l := String.concat "," l;
  containers_get name st :=
    match find_container name st with
    | Some c => (Ok c, st)
    | None => (Raise (NotFound "No such container"), st)
    end;
  containers_run args st :=
    if bool_decide (run_image args ∈ images st) then
      let c := {| c_name := run_name args; short_id := run_name args;
                  status := "running"; attrs_Config := no_attrs |} in
      (Ok c, with_docker st (containers st ++ [c]) (images st))
    else (Raise (ImageNotFound "No such image"), st);
  container_stop c _ st :=
    if stop_raises f then (Raise (APIError "cannot stop container"), st)
    else
      (Ok tt,
       with_docker st
         (map (λ c', if String.eqb (c_name c') (c_name c)
                     then {| c_name := c_name c'; short_id := short_id c';
                             status := "exited"; attrs_Config := attrs_Config c' |}
                     else c') (containers st))
         (images st));
  container_remove c _ st :=
    (Ok tt, with_docker st (without_container (c_name c) st) (images st));
  container_networks c st :=
    (Ok (if no_address f then [] else [("bridge", "172.17.0.2")]), st);
  container_commit c repository tag _ _ st :=
    (Ok {| tags := [repository ++ ":" ++ tag] |},
     with_docker st (containers st) (images st ++ [repository ++ ":" ++ tag]));
  images_get tag st :=
    if bool_decide (tag ∈ images st) then (Ok {| tags := [tag] |}, st)
    else (Raise (ImageNotFound "No such image"), st);
  images_remove tag st :=
    (Ok tt, with_docker st (containers st) (filter (λ t, t ≠ tag) (images st)));
|}.

Definition start : State :=
  {| clock := 1700000000; broker_rows := []; next_id := 1; containers := [];
     images := ["ubuntu"]; endpoints_called := [] |}.

(** The managers as their constructors leave them when no state file
    exists: sequential allocation in a pool of ten ports. *)
Definition nps0 : Nps.NPSManager :=
  {| Nps.server_url := "http://127.0.0.1:8081"; Nps.auth_key := "key";
     Nps.timeout := 10; Nps.retry_count := 3;
     Nps.post_content_type := "application/x-www-form-urlencoded";
     Nps.default_client_id := 2 |}.

Definition ports0 : PortMgr.PortManager :=
  {| PortMgr.config :=
       {| PortMgr.range_start := 10000; PortMgr.range_end := 10009;
          PortMgr.reserved_ports := [80; 443; 22; 8080; 8888];
          PortMgr.strategy := "sequential"; PortMgr.prefer_ranges := [] |};
     PortMgr.allocated_ports := ∅; PortMgr.persisted_ports := ∅ |}.

Definition tunnels0 : Tunnels.DynamicTunnelManager :=
  {| Tunnels.nps := nps0; Tunnels.port_manager := ports0;
     Tunnels.tunnel_mappings := [] |}.

Definition config0 : Containers.Config :=
  {| Containers.cfg_hostname := None; Containers.cfg_ssh_port := None;
     Containers.cfg_ssh_root_password := None; Containers.cfg_jupyter_port := None;
     Containers.cfg_jupyter_token := None; Containers.cfg_jupyter_base_url := None;
     Containers.cfg_jupyter_notebook_dir := None; Containers.cfg_app_port := None |}.

Definition manager0 : Containers.DockerContainerManager :=
  {| Containers.CONFIG := config0; Containers.tunnel_manager := tunnels0;
     Containers.container_images := ∅; Containers.image_history := ∅;
     Containers.max_history_per_container := 1;
     Containers.container_tunnels := ∅;
     Containers.image_mapping_file := None;
     Containers.container_state_file := None |}.

End Sim.

(** A transport that plays a script: each HTTP attempt takes the next
    outcome of the list, and times out once the list is used up.  There
    is no Docker daemon to talk to. *)
Module Script.

Record State := {
  pending : list Attempt;
  slept : Z;                       (* seconds spent in time.sleep *)
  sent : nat;                      (* HTTP attempts made *)
}.

#[export] Instance world : World State := {|
  time_time st := (1700000000, st);
  time_strftime st := ("20240101_000000", st);
  time_sleep n st := {| pending := pending st; slept := slept st + n; sent := sent st |};
  random_position n st := (0%nat, st);
  md5_hexdigest s := s;
  requests_send rq st :=
    match pending st with
    | a :: rest => (a, {| pending := rest; slept := slept st; sent := S (sent st) |})
    | [] => (Timeout, {| pending := []; slept := slept st; sent := S (sent st) |})
    end;
  json_dumps l := String.concat "," l;
  containers_get name st := (Raise (OtherError "no daemon"), st);
  containers_run args st := (Raise (OtherError "no daemon"), st);
  container_stop c _ st := (Raise (OtherError "no daemon"), st);
  container_remove c _ st := (Raise (OtherError "no daemon"), st);
  container_networks c st := (Raise (OtherError "no daemon"), st);
  container_commit c _ _ _ _ st := (Raise (OtherError "no daemon"), st);
  images_get tag st := (Raise (OtherError "no daemon"), st);
  images_remove tag st := (Raise (OtherError "no daemon"), st);
|}.

Definition play (script : list Attempt) : State :=
  {| pending := script; slept := 0; sent := 0 |}.

End Script.

(** ** Scenarios

    Concrete runs in the simulated worlds, used below as examples. *)

Module Scenario.
Import Sim.

(** The broker refuses the tunnel to the notebook port. *)
Definition jupyter_refused : Faults :=
  {| refuse_add_to := ["172.17.0.2:8888"]; refuse_del_of := []; hide_rows := false;
     no_address := false; stop_raises := false |}.

(** It also lists no tunnel, so that no id can be resolved. *)
Definition jupyter_refused_blind : Faults :=
  {| refuse_add_to := ["172.17.0.2:8888"]; refuse_del_of := []; hide_rows := true;
     no_address := false; stop_raises := false |}.

(** The broker lists no tunnel. *)
Definition blind : Faults :=
  {| refuse_add_to := []; refuse_del_of := []; hide_rows := true;
     no_address := false; stop_raises := false |}.

(** The broker refuses the tunnel to [10.0.0.5:22]. *)
Definition host_refused : Faults :=
  {| refuse_add_to := ["10.0.0.5:22"]; refuse_del_of := []; hide_rows := false;
     no_address := false; stop_raises := false |}.

(** The daemon fails to stop containers. *)
Definition stop_fails : Faults :=
  {| refuse_add_to := []; refuse_del_of := []; hide_rows := false;
     no_address := false; stop_raises := true |}.

(** [create_container("ubuntu", "demo")] with a broker that refuses the
    notebook tunnel and resolves no id. *)
Definition blind_create :=
  @Containers.create_container State (world jupyter_refused_blind)
    manager0 "ubuntu" "demo" None start.

(** A container [demo] created in a world without faults. *)
Definition created :=
  @Containers.create_container State (world no_faults)
    manager0 "ubuntu" "demo" None start.

Definition manager1 : Containers.DockerContainerManager := snd (fst created).
Definition world1 : State := snd created.

(** [stop_and_commit("demo")] on it. *)
Definition snapshot :=
  @Containers.stop_and_commit State (world no_faults) manager1 "demo" None world1.

(** [update_tunnel(1, port=10005)] on its ssh tunnel, which holds 10000. *)
Definition moved :=
  @Tunnels.update_tunnel State (world no_faults)
    (Containers.tunnel_manager manager1) 1 None (Some 10005) None world1.

(** [stop_container("demo")] when the daemon has no such container. *)
Definition stop_absent :=
  @Containers.stop_container State (world no_faults) manager0 "demo" start.

(** [stop_container("demo")] when the daemon fails to stop it. *)
Definition stop_failing :=
  @Containers.stop_container State (world stop_fails) manager1 "demo" world1.

Definition with_rows (rows : list TunnelRow) : State :=
  {| clock := clock start; broker_rows := rows; next_id := 10;
     containers := []; images := images start; endpoints_called := [] |}.

(** The broker holds a tunnel on the reserved port 80. *)
Definition broker_port_80 : State :=
  with_rows [{| row_Id := 7; row_Port := 80; row_TargetStr := Some "10.0.0.9:8000";
                row_Remark := Some "legacy" |}].

(** The broker holds a TCP and a UDP tunnel on port 10000. *)
Definition broker_shared_port : State :=
  with_rows [{| row_Id := 1; row_Port := 10000; row_TargetStr := Some "10.0.0.9:53";
                row_Remark := Some "dns tcp" |};
             {| row_Id := 2; row_Port := 10000; row_TargetStr := Some "10.0.0.9:53";
                row_Remark := Some "dns udp" |}].

Definition reconciled_80 : Tunnels.DynamicTunnelManager :=
  fst (@Tunnels._load_tunnel_mappings State (world no_faults) tunnels0 broker_port_80).

Definition reconciled_shared :=
  @Tunnels._load_tunnel_mappings State (world no_faults) tunnels0 broker_shared_port.

(** [delete_tunnel(1)] after that reconciliation. *)
Definition shared_deleted :=
  @Tunnels.delete_tunnel State (world no_faults)
    (fst reconciled_shared) 1 (snd reconciled_shared).

(** A history with one snapshot, held by a manager whose container is
    gone, and a daemon that has the snapshot image. *)
Definition history1 : list string := ["demo:v1_20240101_000000"].

Definition manager_with_history : Containers.DockerContainerManager :=
  {| Containers.CONFIG := config0; Containers.tunnel_manager := tunnels0;
     Containers.container_images := {["demo" := "demo:v1_20240101_000000"]};
     Containers.image_history := {["demo" := history1]};
     Containers.max_history_per_container := 1;
     Containers.container_tunnels := ∅;
     Containers.image_mapping_file := None;
     Containers.container_state_file := None |}.

Definition daemon_with_snapshot : State :=
  {| clock := clock start; broker_rows := []; next_id := 1; containers := [];
     images := ["ubuntu"; "demo:v1_20240101_000000"]; endpoints_called := [] |}.

(** Three attempts that fail in three ways, and an answer that does not
    decode. *)
Definition three_failures : Script.State :=
  Script.play
    [Timeout; ConnectionFailed;
     Replied {| status_code := 503; content_type := "text/html";
                text := "Service Unavailable"; json := JsonDecodeError "no JSON" |}].

Definition undecodable : Script.State :=
  Script.play
    [Replied {| status_code := 200; content_type := "application/json";
                text := "<html>"; json := JsonDecodeError "Expecting value" |}].

End Scenario.

(** A transport on which every request ends the same way.  There is no
    Docker daemon to talk to. *)
Module Fixed.

Definition world (outcome : Attempt) : World unit := {|
  time_time st := (1700000000, st);
  time_strftime st := ("20240101_000000", st);
  time_sleep n st := st;
  random_position n st := (0%nat, st);
  md5_hexdigest s := s;
  requests_send rq st := (outcome, st);
  json_dumps l := String.concat "," l;
  containers_get name st := (Raise (OtherError "no daemon"), st);
  containers_run args st := (Raise (OtherError "no daemon"), st);
  container_stop c _ st := (Raise (OtherError "no daemon"), st);
  container_remove c _ st := (Raise (OtherError "no daemon"), st);
  container_networks c st := (Raise (OtherError "no daemon"), st);
  container_commit c _ _ _ _ st := (Raise (OtherError "no daemon"), st);
  images_get tag st := (Raise (OtherError "no daemon"), st);
  images_remove tag st := (Raise (OtherError "no daemon"), st);
|}.

End Fixed.

(** More runs in the simulated worlds. *)
Module Examples.
Import Sim Scenario.



(** The broker's answers to a deletion: accepted, and refused. *)
Definition accepted : Attempt := json_reply (status_response 1 "del success").




End Examples.

(** * Statements

    The predicates the theorems are stated with. *)

Section PoolStatements.
Import PortMgr.

(** A port the pool may hand out: inside the range, not reserved. *)
Definition in_pool (c : PortConfig) (p : Z) : Prop :=
  range_start c ≤ p ≤ range_end c ∧ p ∉ reserved_ports c.

End PoolStatements.

Section BrokerStatements.
Context {W : Type} {Ops : World W}.
Import Nps.

(** An outcome that [_send_request] retries: a timeout, another
    [RequestException], an HTTP status of 400 to 599. *)
Definition transport_failure (a : Attempt) : bool :=
  match a with
  | Timeout | ConnectionFailed => true
  | Replied r => raises_for_status r
  | Unexpected => false
  end.

(** [n] attempts to send [rq], the first in world [w] and each a second
    after the one before, all end in a transport failure. *)
Fixpoint all_fail (rq : Request) (n : nat) (w : W) : Prop :=
  match n with
  | O => True
  | S n' =>
      transport_failure (fst (requests_send rq w)) = true ∧
      all_fail rq n' (time_sleep 1 (snd (requests_send rq w)))
  end.

(** The world in which attempt [k] (counted from 0) is made when the
    attempts before it failed. *)
Fixpoint before_attempt (rq : Request) (k : nat) (w : W) : W :=
  match k with
  | O => w
  | S k' => before_attempt rq k' (time_sleep 1 (snd (requests_send rq w)))
  end.

(** The world after these [n] attempts: no sleep follows the last. *)
Fixpoint after_attempts (rq : Request) (n : nat) (w : W) : W :=
  match n with
  | O => w
  | S n' =>
      match n' with
      | O => snd (requests_send rq w)
      | S _ => after_attempts rq n' (time_sleep 1 (snd (requests_send rq w)))
      end
  end.

End BrokerStatements.

Section OrchestratorStatements.
Context {W : Type} {Ops : World W}.
Import PortMgr Tunnels Containers.

(** [p] has a record in the allocation table of [tm]. *)
Definition allocated (tm : DynamicTunnelManager) (p : Z) : Prop :=
  is_Some (allocated_ports (port_manager tm) !! p).

(** The port of every cached tunnel record is allocated. *)
Definition cache_inv (tm : DynamicTunnelManager) : Prop :=
  ∀ e, e ∈ tunnel_mappings tm → allocated tm (ti_port e.2).

(** No two cached tunnels share a port. *)
Definition ports_owned_once (tm : DynamicTunnelManager) : Prop :=
  ∀ e1 e2, e1 ∈ tunnel_mappings tm → e2 ∈ tunnel_mappings tm →
           ti_port e1.2 = ti_port e2.2 → e1.1 = e2.1.

(** The methods of the orchestrator that change its state
    ([list_tunnels] and [find_port_by_service] only read it). *)
Inductive Operation :=
| CreateTunnel (target service_name : string) (client_id preferred_port : option Z)
    (remark : option string)
| DeleteTunnel (tunnel_id : Z)
| UpdateTunnel (tunnel_id : Z) (target : option string) (port : option Z)
    (remark : option string)
| GetTunnelInfo (tunnel_id : Z)
| CreateServiceTunnels (services : list ServiceConfig)
| ClearServiceTunnels (service_name : string) (client_id : option Z)
| LoadTunnelMappings
| Cleanup.

Definition perform (op : Operation) (tm : DynamicTunnelManager) (w : W)
  : DynamicTunnelManager * W :=
  match op with
  | CreateTunnel target service_name client_id preferred_port remark =>
      let '(_, tm1, w1) :=
        create_tunnel tm target service_name client_id preferred_port remark w in
      (tm1, w1)
  | DeleteTunnel tunnel_id =>
      let '(_, tm1, w1) := delete_tunnel tm tunnel_id w in (tm1, w1)
  | UpdateTunnel tunnel_id target port remark =>
      let '(_, tm1, w1) := update_tunnel tm tunnel_id target port remark w in (tm1, w1)
  | GetTunnelInfo tunnel_id =>
      let '(_, tm1, w1) := get_tunnel_info tm tunnel_id w in (tm1, w1)
  | CreateServiceTunnels services =>
      let '(_, tm1, w1) := create_service_tunnels tm services w in (tm1, w1)
  | ClearServiceTunnels service_name client_id =>
      let '(_, tm1, w1) := clear_service_tunnels tm service_name client_id w in (tm1, w1)
  | LoadTunnelMappings => _load_tunnel_mappings tm w
  | Cleanup => (cleanup tm, w)
  end.

(** What stays fixed: the broker client and the pool's configuration. *)
Definition same_setup (tm tm' : DynamicTunnelManager) : Prop :=
  nps tm' = nps tm ∧ config (port_manager tm') = config (port_manager tm).

(** The allocation table only grows, and every record that entered the
    cache has an allocated port. *)
Definition grows (tm tm' : DynamicTunnelManager) : Prop :=
  same_setup tm tm' ∧
  (∀ q, allocated tm q → allocated tm' q) ∧
  (∀ e, e ∈ tunnel_mappings tm' →
        e ∈ tunnel_mappings tm ∨ allocated tm' (ti_port e.2)).

(** The invariants the batch operations carry from one round to the next. *)
Definition sound (tm0 tm : DynamicTunnelManager) : Prop :=
  same_setup tm0 tm ∧ cache_inv tm ∧ ports_owned_once tm.

(** Every allocated port is one the pool may hand out. *)
Definition pool_inv (tm : DynamicTunnelManager) : Prop :=
  ∀ p, allocated tm p → in_pool (config (port_manager tm)) p.

(** Every port of a tunnel list lies in the pool. *)
Definition rows_in_pool (c : PortConfig) (rows : list TunnelRow) : Prop :=
  ∀ row, row ∈ rows → in_pool c (row_Port row).

Definition any_rows (c : PortConfig) (rows : list TunnelRow) : Prop := True.

(** The states reached from a fresh orchestrator (empty table, empty
    cache) by [allocate_port], [release_port], [create_tunnel] and the
    reconciliation [_load_tunnel_mappings], each run in any world;
    [accepted] restricts the tunnel lists a reconciliation may receive. *)
Inductive reachable (accepted : PortConfig → list TunnelRow → Prop)
  : DynamicTunnelManager → Prop :=
| reach_fresh client pool :
    reachable accepted
      {| nps := client;
         port_manager := {| config := pool; allocated_ports := ∅;
                            persisted_ports := ∅ |};
         tunnel_mappings := [] |}
| reach_allocate tm service_name client_id preferred_port (w : W) :
    reachable accepted tm →
    reachable accepted
      (set_ports tm
         (snd (fst (allocate_port (port_manager tm) service_name client_id
                      preferred_port w))))
| reach_release tm port :
    reachable accepted tm →
    reachable accepted (set_ports tm (snd (release_port (port_manager tm) port)))
| reach_create_tunnel tm target service_name client_id preferred_port remark (w : W) :
    reachable accepted tm →
    reachable accepted
      (snd (fst (create_tunnel tm target service_name client_id preferred_port
                   remark w)))
| reach_reconcile tm (w : W) :
    reachable accepted tm →
    accepted (config (port_manager tm))
      (rows_of (fst (Nps.list_tunnels (nps tm) (Nps.default_client_id (nps tm)) w))) →
    reachable accepted (fst (_load_tunnel_mappings tm w)).

(** The broker accepts the deletion of tunnel [id] whenever asked. *)
Definition broker_accepts_delete (client : Nps.NPSManager) (id : Z) : Prop :=
  ∀ w : W, fst (Nps.delete_tunnel client id w) = true.

(** The ids of a batch of tunnel records. *)
Definition batch_ids (batch : list (string * TunnelRec)) : list (option Z) :=
  (λ st, tunnel_id st.2) <$> batch.

(** What a run of [create_tunnels] that added the records [extra] did
    to the orchestrator. *)
Definition provisioned (tm : DynamicTunnelManager) (extra : list (string * TunnelRec))
    (tm1 : DynamicTunnelManager) : Prop :=
  same_setup tm tm1 ∧
  (∀ q, allocated tm1 q →
        allocated tm q ∨ ∃ st, st ∈ extra ∧ q = ti_port (info st.2)) ∧
  (∀ id, Some id ∉ batch_ids extra →
         ODict.get id (tunnel_mappings tm1) = ODict.get id (tunnel_mappings tm)) ∧
  (NoDup (batch_ids extra) →
   ∀ st id, st ∈ extra → tunnel_id st.2 = Some id →
            ODict.get id (tunnel_mappings tm1) = Some (info st.2)).

End OrchestratorStatements.

Section ContainerStatements.
Context {W : Type} {Ops : World W}.
Import PortMgr Tunnels Containers.

(** The call of [create_tunnel] that the loop of [create_container]
    makes for a service of [services_to_tunnel]. *)
Definition service_tunnel (name container_ip : string) (service : string * Z)
    (tm : DynamicTunnelManager) (w : W)
  : option TunnelRec * DynamicTunnelManager * W :=
  create_tunnel tm (container_ip ++ ":" ++ Py.str_of_int service.2) service.1
    None None (Some ("Container:" ++ name ++ "_Service:" ++ service.1)) w.

(** Provisioning fails for some service: going through the services in
    their order, each call made in the state the call before it left,
    one call of [create_tunnel] returns [None]. *)
Inductive service_fails (name container_ip : string)
  : list (string * Z) → DynamicTunnelManager → W → Prop :=
| fails_now service rest tm w tm1 w1 :
    service_tunnel name container_ip service tm w = (None, tm1, w1) →
    service_fails name container_ip (service :: rest) tm w
| fails_later service rest tm w tunnel_info tm1 w1 :
    service_tunnel name container_ip service tm w = (tunnel_info, tm1, w1) →
    service_fails name container_ip rest tm1 w1 →
    service_fails name container_ip (service :: rest) tm w.

(** The records of a batch that have an id. *)
Definition with_id (batch : list (string * TunnelRec)) : list (string * TunnelRec) :=
  filter (λ st, is_Some (tunnel_id st.2)) batch.

End ContainerStatements.

Section StrategyStatements.
Context {W : Type} {Ops : World W}.
Import PortMgr.


End StrategyStatements.

Section BrokerOperations.
Context {W : Type} {Ops : World W}.
Import Nps NpsClients.






End BrokerOperations.

Section CacheStatements.
Context {W : Type} {Ops : World W}.
Import PortMgr Tunnels.





End CacheStatements.

Section RecordStatements.
Context {W : Type} {Ops : World W}.
Import PortMgr Tunnels Containers.


End RecordStatements.

(** * Properties *)

(** ** The port pool *)

Section PortPool.
Context {W : Type} {Ops : World W}.
Import PortMgr.

Lemma py_min_elem first rest : py_min first rest ∈ first :: rest.
Proof.
  unfold py_min. revert first.
  induction rest as [|x rest IH]; intros first; simpl.
  - left.
  - destruct (Z.min_spec first x) as [[_ ->]|[_ ->]].
    + destruct (proj1 (elem_of_cons _ _ _) (IH first)) as [->|?];
        [left | right; by right].
    + right. apply IH.
Qed.

Lemma available_in_pool pm p :
  p ∈ get_available_ports pm →
  in_pool (config pm) p ∧ (allocated_ports pm !! p = None ∨ p < 0).
Proof.
  unfold get_available_ports, in_pool.
  rewrite list_elem_of_filter, elem_of_seqZ.
  intros [[Hres Hal] Hrange]. split; [split; [lia | done] |].
  destruct (allocated_ports pm !! p) eqn:E; [|by left].
  right. destruct (decide (0 ≤ p)); [|lia].
  exfalso. apply Hal. split; [by eexists | done].
Qed.

Lemma is_port_available_spec pm p :
  _is_port_available pm p = true ↔
  in_pool (config pm) p ∧ allocated_ports pm !! p = None.
Proof.
  unfold _is_port_available, in_pool, Py.in_list.
  destruct (range_start (config pm) <=? p) eqn:E1;
    destruct (p <=? range_end (config pm)) eqn:E2; simpl;
    try (split; [discriminate | intros [[? _] _]; lia]).
  destruct (bool_decide (p ∈ reserved_ports (config pm))) eqn:Er.
  - apply bool_decide_eq_true in Er. split; [discriminate | by intros [[_ ?] _]].
  - apply bool_decide_eq_false in Er.
    destruct (allocated_ports pm !! p) eqn:Ea.
    + rewrite bool_decide_eq_true_2 by (by eexists).
      split; [discriminate | by intros [_ ?]].
    + rewrite bool_decide_eq_false_2 by (by intros [? ?]).
      split; [|done]. intros _. split; [split; [lia | done] | done].
Qed.

Lemma random_choice_elem seq w c w1 :
  random_choice seq w = (Some c, w1) → c ∈ seq.
Proof.
  unfold random_choice. destruct (random_position _ w) as [i w'].
  intros [= Hc _]. by eapply list_elem_of_lookup_2.
Qed.

Lemma preferred_candidates_available ranges available p :
  p ∈ preferred_candidate_ports ranges available → p ∈ available.
Proof.
  unfold preferred_candidate_ports. rewrite list_elem_of_bind.
  intros (r & Hp & _). by apply list_elem_of_filter in Hp as [_ ?].
Qed.

(** What [allocate_port] does to the manager. *)
Lemma allocate_port_Some pm service_name client_id preferred_port w x pm1 w1 :
  allocate_port pm service_name client_id preferred_port w = (Some x, pm1, w1) →
  in_pool (config pm) x ∧ (allocated_ports pm !! x = None ∨ x < 0) ∧
  config pm1 = config pm ∧
  ∃ t, allocated_ports pm1 =
       <[x := {| pi_service := service_name; pi_allocated_time := t;
                 pi_client_id := client_id |}]> (allocated_ports pm).
Proof.
  unfold allocate_port.
  assert (Hfin : ∀ c w0,
    match c with
    | Some p =>
        let '(_, pm1, w1) := _mark_port_allocated pm p service_name client_id w0 in
        let '(_, pm2) := save_allocated_ports pm1 in (Some p, pm2, w1)
    | None => (None, pm, w0)
    end = (Some x, pm1, w1) →
    c = Some x ∧ config pm1 = config pm ∧
    ∃ t, allocated_ports pm1 =
         <[x := {| pi_service := service_name; pi_allocated_time := t;
                   pi_client_id := client_id |}]> (allocated_ports pm)).
  { intros [p|] w0; [|discriminate]. unfold _mark_port_allocated.
    destruct (time_time w0) as [now w']. simpl. intros [= -> <- _].
    simpl. eauto. }
  assert (Hav : ∀ p, p ∈ get_available_ports pm →
    in_pool (config pm) p ∧ (allocated_ports pm !! p = None ∨ p < 0))
    by apply available_in_pool.
  destruct (match preferred_port with
            | Some p => if _is_port_available pm p then Some p else None
            | None => None end) as [p|] eqn:Epref.
  - intros Hf. apply (Hfin (Some p)) in Hf as ([= ->] & ? & ?).
    destruct preferred_port as [q|]; [|discriminate].
    destruct (_is_port_available pm q) eqn:Eq; [|discriminate].
    injection Epref as ->. apply is_port_available_spec in Eq as [? ?]. eauto.
  - destruct (get_available_ports pm) as [|first rest] eqn:Eav; [discriminate|].
    destruct (String.eqb _ "sequential").
    { intros Hf. apply (Hfin (Some _)) in Hf as ([= <-] & ? & ?).
      destruct (Hav (py_min first rest)) as [? ?]; [apply py_min_elem | eauto]. }
    destruct (String.eqb _ "random");
      [|intros Hf; by apply (Hfin None) in Hf as ([=] & _)].
    destruct (preferred_candidate_ports _ _) as [|c0 cs] eqn:Ec.
    + destruct (random_choice (first :: rest) w) as [c w'] eqn:Er.
      intros Hf. apply Hfin in Hf as (-> & ? & ?).
      apply random_choice_elem in Er. destruct (Hav x Er). eauto.
    + destruct (random_choice (c0 :: cs) w) as [c w'] eqn:Er.
      intros Hf. apply Hfin in Hf as (-> & ? & ?).
      apply random_choice_elem in Er. rewrite <- Ec in Er.
      apply preferred_candidates_available in Er.
      destruct (Hav x Er). eauto.
Qed.

Lemma allocate_port_None pm service_name client_id preferred_port w pm1 w1 :
  allocate_port pm service_name client_id preferred_port w = (None, pm1, w1) →
  pm1 = pm.
Proof.
  unfold allocate_port.
  assert (Hfin : ∀ c w0,
    match c with
    | Some p =>
        let '(_, pm1, w1) := _mark_port_allocated pm p service_name client_id w0 in
        let '(_, pm2) := save_allocated_ports pm1 in (Some p, pm2, w1)
    | None => (None, pm, w0)
    end = (None, pm1, w1) → pm1 = pm).
  { intros [p|] w0; [|by intros [= <- _]]. unfold _mark_port_allocated.
    by destruct (time_time w0). }
  destruct (match preferred_port with
            | Some p => if _is_port_available pm p then Some p else None
            | None => None end) as [p|]; [apply (Hfin (Some p))|].
  destruct (get_available_ports pm) as [|first rest]; [by intros [= <- _]|].
  destruct (String.eqb _ "sequential"); [apply (Hfin (Some _))|].
  destruct (String.eqb _ "random"); [|apply (Hfin None)].
  destruct (preferred_candidate_ports _ _);
    destruct (random_choice _ w); apply Hfin.
Qed.

Lemma release_port_allocated pm p info :
  allocated_ports pm !! p = Some info →
  release_port pm p =
    (true, {| config := config pm; allocated_ports := delete p (allocated_ports pm);
              persisted_ports := delete p (allocated_ports pm) |}).
Proof. unfold release_port. by intros ->. Qed.

Lemma release_port_free pm p :
  allocated_ports pm !! p = None → release_port pm p = (false, pm).
Proof. unfold release_port. by intros ->. Qed.

Lemma is_port_allocated_spec pm p :
  is_port_allocated pm p = true ↔ is_Some (allocated_ports pm !! p).
Proof. unfold is_port_allocated. by rewrite bool_decide_eq_true. Qed.

Lemma is_port_allocated_false pm p :
  is_port_allocated pm p = false ↔ allocated_ports pm !! p = None.
Proof.
  unfold is_port_allocated. rewrite bool_decide_eq_false.
  by rewrite eq_None_not_Some.
Qed.

(** C7. A port that [allocate_port] returned is released by the next
    [release_port], which returns [True]; the port is then available
    again and a later [allocate_port] that prefers it gets it.  Releasing
    a port that is not allocated returns [False] and changes nothing. *)
Theorem release_after_allocate
    pm service_name client_id preferred_port w x pm1 w1 :
  allocate_port pm service_name client_id preferred_port w = (Some x, pm1, w1) →
  (∃ pm2, release_port pm1 x = (true, pm2) ∧
          is_port_allocated pm2 x = false ∧
          _is_port_available pm2 x = true ∧
          ∀ service' client' w', ∃ pm3 w3,
            allocate_port pm2 service' client' (Some x) w' = (Some x, pm3, w3)) ∧
  (∀ pm' p, is_port_allocated pm' p = false → release_port pm' p = (false, pm')).
Proof.
  intros Ha. apply allocate_port_Some in Ha as (Hpool & _ & Hcfg & t & Ht).
  split.
  - erewrite release_port_allocated; [|rewrite Ht; apply lookup_insert_eq].
    eexists; split; [done|].
    assert (Hav : _is_port_available
              {| config := config pm1;
                 allocated_ports := delete x (allocated_ports pm1);
                 persisted_ports := delete x (allocated_ports pm1) |} x = true).
    { apply is_port_available_spec. simpl. rewrite Hcfg.
      split; [done | apply lookup_delete_eq]. }
    split; [apply is_port_allocated_false; apply lookup_delete_eq |].
    split; [done|].
    intros service' client' w'. unfold allocate_port. rewrite Hav.
    unfold _mark_port_allocated. destruct (time_time w') as [now w'']. simpl.
    eauto.
  - intros pm' p Hp. apply release_port_free. by apply is_port_allocated_false.
Qed.

End PortPool.

(** ** The broker client *)

Section BrokerClient.
Context {W : Type} {Ops : World W}.
Import Nps.

Lemma send_attempts_all_fail self rq todo attempt w :
  attempt + Z.of_nat todo = retry_count self →
  all_fail rq todo w →
  send_attempts self rq todo attempt w = (None, after_attempts rq todo w).
Proof.
  revert attempt w. induction todo as [|todo IH]; intros attempt w Hn Hf; [done|].
  destruct Hf as [Hf1 Hf2]. cbn [send_attempts].
  destruct (requests_send rq w) as [a w1] eqn:Ea. simpl in Hf1, Hf2.
  assert (Hretry :
    (if attempt =? retry_count self - 1 then (None, w1)
     else send_attempts self rq todo (attempt + 1) (time_sleep 1 w1))
    = (None, after_attempts rq (S todo) w)).
  { cbn [after_attempts]. rewrite Ea. simpl.
    destruct (attempt =? retry_count self - 1) eqn:E.
    - apply Z.eqb_eq in E. destruct todo; [done | lia].
    - apply Z.eqb_neq in E. destruct todo as [|todo']; [lia|].
      apply IH; [lia | done]. }
  destruct a as [| | |r]; simpl in Hf1; try done.
  by rewrite Hf1.
Qed.

Lemma send_attempts_decode_error self rq k todo attempt w r w1 e :
  attempt + Z.of_nat k < retry_count self →
  all_fail rq k w →
  requests_send rq (before_attempt rq k w) = (Replied r, w1) →
  raises_for_status r = false →
  Py.contains "application/json" (content_type r) = true →
  json r = JsonDecodeError e →
  send_attempts self rq (k + S todo) attempt w =
    (Some (status_response 0 ("JSON Decode Error: " ++ e)), w1).
Proof.
  revert attempt w. induction k as [|k IH]; intros attempt w Hlt Hf Hs Hst Hct Hj.
  - cbn [send_attempts before_attempt Nat.add] in *. rewrite Hs, Hst.
    unfold interpret_reply. by rewrite Hct, Hj.
  - destruct Hf as [Hf1 Hf2]. cbn [send_attempts before_attempt Nat.add] in *.
    destruct (requests_send rq w) as [a w'] eqn:Ea. simpl in Hf1, Hf2, Hs.
    replace (attempt =? retry_count self - 1) with false
      by (symmetry; apply Z.eqb_neq; lia).
    assert (Hnext : send_attempts self rq (k + S todo) (attempt + 1) (time_sleep 1 w')
                    = (Some (status_response 0 ("JSON Decode Error: " ++ e)), w1))
      by (apply IH; [lia | done..]).
    destruct a as [| | |r']; simpl in Hf1; try done.
    by rewrite Hf1.
Qed.

(** C8.  When each of the [retry_count] attempts ends in a timeout, a
    connection error or an HTTP 4xx/5xx status, [_send_request] returns
    [None] after exactly these attempts.  When an attempt, the first or
    one that follows such failures, is answered with status 200 and a
    JSON body that does not decode, [_send_request] returns right after
    it, without another attempt, a response with [status] 0 and a
    message: a value different from [None]. *)
Theorem transport_failure_and_decode_error self endpoint data method :
  (∀ (w w0 : W) now rq,
     time_time w = (now, w0) →
     build_request self endpoint data method now = Some rq →
     all_fail rq (Z.to_nat (retry_count self)) w0 →
     _send_request self endpoint data method w =
       (None, after_attempts rq (Z.to_nat (retry_count self)) w0)) ∧
  (∀ (w w0 w1 : W) now rq k r e,
     time_time w = (now, w0) →
     build_request self endpoint data method now = Some rq →
     Z.of_nat k < retry_count self →
     all_fail rq k w0 →
     requests_send rq (before_attempt rq k w0) = (Replied r, w1) →
     status_code r = 200 →
     Py.contains "application/json" (content_type r) = true →
     json r = JsonDecodeError e →
     ∃ rejection,
       _send_request self endpoint data method w = (Some rejection, w1) ∧
       r_status rejection = Some 0 ∧
       r_msg rejection = Some ("JSON Decode Error: " ++ e) ∧
       success (Some rejection) = false ∧
       Some rejection ≠ @None Response).
Proof.
  split.
  - intros w w0 now rq Ht Hb Hf. unfold _send_request. rewrite Ht, Hb.
    destruct (Z_le_gt_dec 0 (retry_count self)).
    + apply send_attempts_all_fail; [rewrite Z2Nat.id; lia | done].
    + replace (Z.to_nat (retry_count self)) with 0%nat by lia. done.
  - intros w w0 w1 now rq k r e Ht Hb Hrc Hf Hs Hcode Hct Hj.
    exists (status_response 0 ("JSON Decode Error: " ++ e)).
    split; [|done].
    unfold _send_request. rewrite Ht, Hb.
    replace (Z.to_nat (retry_count self))
      with (k + S (Z.to_nat (retry_count self) - k - 1))%nat by lia.
    eapply send_attempts_decode_error; eauto.
    unfold raises_for_status. rewrite Hcode. done.
Qed.

End BrokerClient.

(** ** Insertion-ordered dicts *)

Section ODictFacts.
Context {K V : Type} `{EqDecision K}.
Implicit Types (d : list (K * V)) (k : K) (v : V).

Lemma odict_get_set k k' v d :
  ODict.get k' (ODict.set k v d) = if decide (k' = k) then Some v else ODict.get k' d.
Proof.
  induction d as [|[k0 v0] d IH]; simpl.
  - by repeat case_decide.
  - repeat (case_decide; simpl; subst); try done; congruence.
Qed.

Lemma odict_get_del k k' d :
  ODict.get k' (ODict.del k d) = if decide (k' = k) then None else ODict.get k' d.
Proof.
  induction d as [|[k0 v0] d IH]; simpl.
  - by case_decide.
  - repeat (case_decide; simpl; subst); try done; congruence.
Qed.

Lemma odict_elem_of_set k v d e :
  e ∈ ODict.set k v d → e = (k, v) ∨ e ∈ d.
Proof.
  induction d as [|[k0 v0] d IH]; simpl.
  - rewrite list_elem_of_singleton. auto.
  - case_decide; subst; rewrite !elem_of_cons; naive_solver.
Qed.

Lemma odict_elem_of_del k d e :
  e ∈ ODict.del k d ↔ e ∈ d ∧ e.1 ≠ k.
Proof.
  induction d as [|[k0 v0] d IH]; simpl.
  - rewrite elem_of_nil. naive_solver.
  - case_decide; subst; rewrite ?elem_of_cons, IH; naive_solver.
Qed.

Lemma odict_get_elem k v d : ODict.get k d = Some v → (k, v) ∈ d.
Proof.
  induction d as [|[k0 v0] d IH]; simpl; [done|].
  case_decide; subst; [intros [= ->]; left | right; auto].
Qed.

End ODictFacts.

(** ** The tunnel orchestrator *)

Section Orchestrator.
Context {W : Type} {Ops : World W}.
Import PortMgr Tunnels.

(** C6. When [create_tunnel] got a port from the pool and the broker's
    [add_tunnel] then fails, [create_tunnel] returns [None]; the port is
    released (not allocated, available again), the tunnel cache is what
    it was, and no port is allocated that was not before. *)
Theorem failed_add_releases_port
    self target service_name client_id preferred_port remark
    (w w1 w2 w3 : W) p pm1 remark' :
  allocate_port (port_manager self) service_name
    (Some (default (Nps.default_client_id (nps self)) client_id))
    preferred_port w = (Some p, pm1, w1) →
  remark_or_default service_name target remark w1 = (remark', w2) →
  Nps.add_tunnel (nps self) (default (Nps.default_client_id (nps self)) client_id)
    "tcp" p target remark' w2 = (false, w3) →
  ∃ self',
    create_tunnel self target service_name client_id preferred_port remark w
      = (None, self', w3) ∧
    tunnel_mappings self' = tunnel_mappings self ∧
    is_port_allocated (port_manager self') p = false ∧
    _is_port_available (port_manager self') p = true ∧
    (∀ q, allocated self' q → allocated self q).
Proof.
  intros Ha Hr Hadd. unfold create_tunnel. rewrite Ha. simpl. rewrite Hr, Hadd.
  simpl. apply allocate_port_Some in Ha as (Hpool & _ & Hcfg & t & Ht).
  erewrite release_port_allocated; [|rewrite Ht; apply lookup_insert_eq].
  eexists. split; [done|]. simpl.
  split; [done|].
  split; [apply is_port_allocated_false; simpl; apply lookup_delete_eq|].
  split.
  - apply is_port_available_spec. simpl. rewrite Hcfg.
    split; [done | apply lookup_delete_eq].
  - intros q. unfold allocated. simpl. rewrite Ht.
    destruct (decide (q = p)) as [->|Hne].
    + rewrite lookup_delete_eq. by intros [? ?].
    + by rewrite lookup_delete_ne, lookup_insert_ne.
Qed.

(** C3 on the code.  [update_tunnel] is asked to move a cached tunnel to
    another port, which is free.  The port is marked; the test on the
    value of [_mark_port_allocated], which is always [None], then makes
    the method return [False].  The world has only been asked the time:
    no request went to the broker.  The cache is unchanged, the new port
    was free and is now allocated, and nothing was released, so the old
    port is allocated beside it. *)
Theorem port_change_leaks_new_port self tunnel_id tunnel_info target p remark (w : W) :
  ODict.get tunnel_id (tunnel_mappings self) = Some tunnel_info →
  p ≠ ti_port tunnel_info →
  _is_port_available (port_manager self) p = true →
  ∃ self',
    update_tunnel self tunnel_id target (Some p) remark w
      = (false, self', snd (time_time w)) ∧
    tunnel_mappings self' = tunnel_mappings self ∧
    is_port_allocated (port_manager self) p = false ∧
    is_port_allocated (port_manager self') p = true ∧
    (∀ q, allocated self q → allocated self' q).
Proof.
  intros Hget Hne Hav.
  exists (set_ports self
            (set_allocated (port_manager self)
               (<[p := {| pi_service := ti_service tunnel_info;
                          pi_allocated_time := fst (time_time w);
                          pi_client_id := Some (ti_client_id tunnel_info) |}]>
                  (allocated_ports (port_manager self))))).
  split.
  { unfold update_tunnel. rewrite Hget. simpl.
    destruct (decide (p = ti_port tunnel_info)) as [|_]; [done|].
    replace (p =? ti_port tunnel_info) with false by (symmetry; by apply Z.eqb_neq).
    rewrite andb_false_r. simpl. rewrite Hav. simpl.
    unfold _mark_port_allocated. by destruct (time_time w). }
  split; [done|].
  split.
  { apply is_port_allocated_false.
    by apply is_port_available_spec in Hav as [_ ?]. }
  split.
  - apply bool_decide_eq_true_2. simpl. rewrite lookup_insert_eq. by eexists.
  - intros q [i Hq]. unfold allocated. simpl.
    destruct (decide (p = q)) as [->|Hpq].
    + rewrite lookup_insert_eq. by eexists.
    + rewrite lookup_insert_ne by done. by eexists.
Qed.

End Orchestrator.

Section Invariants.
Context {W : Type} {Ops : World W}.
Import PortMgr Tunnels.
#[local] Arguments fetch_tunnel_id : simpl never.

Lemma same_setup_refl tm : same_setup tm tm.
Proof. done. Qed.

Lemma same_setup_trans tm1 tm2 tm3 :
  same_setup tm1 tm2 → same_setup tm2 tm3 → same_setup tm1 tm3.
Proof. intros [? ?] [? ?]. split; congruence. Qed.

Lemma create_tunnel_effect self target service_name client_id preferred_port remark
    w r self' w' :
  create_tunnel self target service_name client_id preferred_port remark w
    = (r, self', w') →
  same_setup self self' ∧
  match r with
  | None =>
      tunnel_mappings self' = tunnel_mappings self ∧
      (∀ q, allocated self' q → allocated self q) ∧
      (0 ≤ range_start (config (port_manager self)) →
       ∀ q, allocated self q → allocated self' q)
  | Some t =>
      in_pool (config (port_manager self)) (ti_port (info t)) ∧
      (allocated_ports (port_manager self) !! ti_port (info t) = None
       ∨ ti_port (info t) < 0) ∧
      (∀ q, allocated self' q ↔ q = ti_port (info t) ∨ allocated self q) ∧
      match tunnel_id t with
      | None => tunnel_mappings self' = tunnel_mappings self
      | Some id => tunnel_mappings self' = ODict.set id (info t) (tunnel_mappings self)
      end
  end.
Proof.
  unfold create_tunnel.
  destruct (allocate_port _ _ _ _ w) as [[[p|] pm1] w1] eqn:Ha.
  2:{ intros [= <- <- _]. apply allocate_port_None in Ha as ->.
      destruct self; simpl. split; [done|]. split; [done|]. split; auto. }
  apply allocate_port_Some in Ha as (Hpool & Hfresh & Hcfg & t & Ht).
  destruct (remark_or_default _ _ _ w1) as [remark' w2].
  destruct (Nps.add_tunnel _ _ _ _ _ _ w2) as [[|] w3]; simpl.
  - destruct (fetch_tunnel_id _ _ _ _ _ _) as [tid w4].
    assert (Hal : ∀ q, is_Some (allocated_ports pm1 !! q)
                       ↔ q = p ∨ allocated self q).
    { intros q. unfold allocated. rewrite Ht.
      destruct (decide (q = p)) as [->|Hne].
      - rewrite lookup_insert_eq. split; [auto | by eexists].
      - rewrite lookup_insert_ne by done. naive_solver. }
    destruct (Py.truthy_int tid) eqn:Etid; simpl.
    + destruct tid as [id|]; [|done].
      intros [= <- <- _]. simpl.
      split; [done|]. split; [done|]. split; [done|]. split; [apply Hal | done].
    + intros [= <- <- _]. simpl.
      split; [done|]. split; [done|]. split; [done|]. split; [apply Hal | done].
  - erewrite release_port_allocated; [|rewrite Ht; apply lookup_insert_eq].
    intros [= <- <- _]. simpl. split; [done|]. split; [done|].
    unfold allocated; simpl. rewrite Ht. split.
    + intros q. destruct (decide (q = p)) as [->|Hne].
      * rewrite lookup_delete_eq. by intros [? ?].
      * by rewrite lookup_delete_ne, lookup_insert_ne.
    + intros Hnn q Hq. destruct (decide (q = p)) as [->|Hne].
      * destruct Hpool as [[? _] _].
        destruct Hfresh as [Hf|?]; [|lia]. rewrite Hf in Hq. by destruct Hq.
      * by rewrite lookup_delete_ne, lookup_insert_ne.
Qed.

Lemma delete_tunnel_effect self tunnel_id w r self' w' :
  delete_tunnel self tunnel_id w = (r, self', w') →
  same_setup self self' ∧
  (self' = self ∨
   ∃ info, ODict.get tunnel_id (tunnel_mappings self) = Some info ∧ r = true ∧
           tunnel_mappings self' = ODict.del tunnel_id (tunnel_mappings self) ∧
           ∀ q, allocated self' q ↔ allocated self q ∧ q ≠ ti_port info).
Proof.
  unfold delete_tunnel.
  destruct (ODict.get tunnel_id (tunnel_mappings self)) as [info|] eqn:Hget;
    destruct (Nps.delete_tunnel _ _ w) as [[|] w1]; simpl;
    try (intros [= <- <- _]; split; [done | by left]).
  unfold release_port.
  destruct (allocated_ports (port_manager self) !! ti_port info) eqn:Hp; simpl;
    intros [= <- <- _]; (split; [done|]); right; exists info;
    (split; [done|]); (split; [done|]); (split; [done|]);
    intros q; unfold allocated; simpl.
  - destruct (decide (q = ti_port info)) as [->|Hne].
    + rewrite lookup_delete_eq. split; [by intros [? ?] | by intros [_ ?]].
    + rewrite lookup_delete_ne by done. naive_solver.
  - split; [|naive_solver]. intros Hq. split; [done|].
    intros ->. rewrite Hp in Hq. by destruct Hq.
Qed.

Lemma create_tunnel_keeps_invariants self target service_name client_id
    preferred_port remark w r self' w' :
  0 ≤ range_start (config (port_manager self)) →
  cache_inv self → ports_owned_once self →
  create_tunnel self target service_name client_id preferred_port remark w
    = (r, self', w') →
  cache_inv self' ∧ ports_owned_once self'.
Proof.
  intros Hnn Hinv Hown Hc. apply create_tunnel_effect in Hc as [_ Hc].
  destruct r as [t|].
  - destruct Hc as (Hpool & Hfresh & Hal & Hmap).
    assert (Hnew : allocated_ports (port_manager self) !! ti_port (info t) = None).
    { destruct Hfresh as [?|?]; [done|]. destruct Hpool as [[? _] _]. lia. }
    destruct (tunnel_id t) as [id|].
    + split.
      * intros e He. rewrite Hmap in He. apply Hal.
        apply odict_elem_of_set in He as [->|He]; [by left | right; auto].
      * intros e1 e2 H1 H2 Hp. rewrite Hmap in H1, H2.
        apply odict_elem_of_set in H1 as [->|H1];
          apply odict_elem_of_set in H2 as [->|H2]; simpl in *; auto.
        -- apply Hinv in H2. unfold allocated in H2.
           rewrite <- Hp, Hnew in H2. by destruct H2.
        -- apply Hinv in H1. unfold allocated in H1.
           rewrite Hp, Hnew in H1. by destruct H1.
    + split.
      * intros e He. rewrite Hmap in He. apply Hal. right. auto.
      * intros e1 e2. rewrite Hmap. apply Hown.
  - destruct Hc as (Hmap & _ & Hal). split.
    + intros e He. rewrite Hmap in He. auto.
    + intros e1 e2. rewrite Hmap. apply Hown.
Qed.

Lemma delete_tunnel_keeps_invariants self tunnel_id w r self' w' :
  cache_inv self → ports_owned_once self →
  delete_tunnel self tunnel_id w = (r, self', w') →
  cache_inv self' ∧ ports_owned_once self'.
Proof.
  intros Hinv Hown Hd. apply delete_tunnel_effect in Hd as [_ [->|Hd]]; [done|].
  destruct Hd as (info & Hget & _ & Hmap & Hal).
  apply odict_get_elem in Hget. split.
  - intros e He. rewrite Hmap in He. apply odict_elem_of_del in He as [He Hne].
    apply Hal. split; [auto|]. intros Hp. apply Hne.
    by apply (Hown e (tunnel_id, info)).
  - intros e1 e2. rewrite Hmap, !odict_elem_of_del.
    intros [? _] [? _]. by apply Hown.
Qed.

Lemma update_tunnel_effect self tunnel_id target port remark w r self' w' :
  update_tunnel self tunnel_id target port remark w = (r, self', w') →
  same_setup self self' ∧
  (∀ q, allocated self q → allocated self' q) ∧
  (tunnel_mappings self' = tunnel_mappings self ∨
   ∃ old new, ODict.get tunnel_id (tunnel_mappings self) = Some old ∧
              ti_port new = ti_port old ∧
              tunnel_mappings self' = ODict.set tunnel_id new (tunnel_mappings self)).
Proof.
  unfold update_tunnel.
  destruct (ODict.get tunnel_id (tunnel_mappings self)) as [old|] eqn:Hget;
    [|intros [= <- <- _]; split; [done | auto]].
  destruct (String.eqb _ _ && _ && _); [intros [= <- <- _]; split; [done | auto]|].
  destruct port as [p|]; simpl.
  - destruct (p =? ti_port old) eqn:Ep; simpl.
    + destruct (Nps.update_tunnel _ _ _ _ _ w) as [[|] w1]; simpl;
        intros [= <- <- _]; (split; [done|]); (split; [done|]); [|by left].
      right. eexists old, _. split; [done|]. split; [|done].
      by destruct target, remark.
    + destruct (_is_port_available (port_manager self) p); simpl;
        [|intros [= <- <- _]; split; [done | auto]].
      unfold _mark_port_allocated. destruct (time_time w) as [now w1]. simpl.
      intros [= <- <- _]. split; [done|]. split; [|by left].
      intros q. unfold allocated. simpl.
      destruct (decide (q = p)) as [->|Hne].
      * rewrite lookup_insert_eq. by eexists.
      * by rewrite lookup_insert_ne.
  - destruct (Nps.update_tunnel _ _ _ _ _ w) as [[|] w1]; simpl;
      intros [= <- <- _]; (split; [done|]); (split; [done|]); [|by left].
    right. eexists old, _. split; [done|]. split; [|done].
    by destruct target, remark.
Qed.

Lemma update_tunnel_keeps_invariants self tunnel_id target port remark w r self' w' :
  cache_inv self → ports_owned_once self →
  update_tunnel self tunnel_id target port remark w = (r, self', w') →
  cache_inv self' ∧ ports_owned_once self'.
Proof.
  intros Hinv Hown Hu. apply update_tunnel_effect in Hu as (_ & Hal & [Hmap|Hmap]).
  - split.
    + intros e He. rewrite Hmap in He. auto.
    + intros e1 e2. rewrite Hmap. apply Hown.
  - destruct Hmap as (old & new & Hget & Hport & Hmap).
    apply odict_get_elem in Hget.
    assert (Hin : ∀ e, e ∈ tunnel_mappings self' →
              ∃ e0, e0 ∈ tunnel_mappings self ∧ e0.1 = e.1 ∧
                    ti_port e0.2 = ti_port e.2).
    { intros e He. rewrite Hmap in He.
      apply odict_elem_of_set in He as [->|He]; [|by exists e].
      by exists (tunnel_id, old). }
    split.
    + intros e He. destruct (Hin e He) as (e0 & H0 & _ & <-). auto.
    + intros e1 e2 H1 H2 Hp.
      destruct (Hin e1 H1) as (a & Ha & <- & Hpa).
      destruct (Hin e2 H2) as (b & Hb & <- & Hpb).
      apply Hown; [done | done | congruence].
Qed.

Lemma grows_refl tm : grows tm tm.
Proof. split; [done|]. split; auto. Qed.

Lemma grows_trans tm1 tm2 tm3 : grows tm1 tm2 → grows tm2 tm3 → grows tm1 tm3.
Proof.
  intros (S1 & A1 & C1) (S2 & A2 & C2).
  split; [by eapply same_setup_trans|]. split; [auto|].
  intros e He. destruct (C2 e He) as [He2|?]; [|auto].
  destruct (C1 e He2) as [?|?]; auto.
Qed.

Lemma grows_cache_inv tm tm' : grows tm tm' → cache_inv tm → cache_inv tm'.
Proof.
  intros (_ & Hal & Hc) Hinv e He. destruct (Hc e He) as [?|?]; auto.
Qed.

Lemma mark_if_needed_grows self id info pm1 :
  (allocated_ports pm1 = allocated_ports (port_manager self) ∧
   is_Some (allocated_ports (port_manager self) !! ti_port info)
   ∨ ∃ r, allocated_ports pm1 =
          <[ti_port info := r]> (allocated_ports (port_manager self))) →
  config pm1 = config (port_manager self) →
  grows self
    (set_ports (set_mappings self (ODict.set id info (tunnel_mappings self))) pm1).
Proof.
  intros Hal Hcfg. split; [done|]. unfold allocated. simpl. split.
  - intros q Hq. destruct Hal as [[-> _]|[r ->]]; [done|].
    destruct (decide (q = ti_port info)) as [->|?].
    + rewrite lookup_insert_eq. by eexists.
    + by rewrite lookup_insert_ne.
  - intros e He. apply odict_elem_of_set in He as [->|He]; [right|by left].
    simpl. destruct Hal as [[-> ?]|[r ->]]; [done|].
    rewrite lookup_insert_eq. by eexists.
Qed.

Lemma load_row_grows client_id self w tunnel :
  grows self (fst (load_row client_id self w tunnel)).
Proof.
  unfold load_row. cbn [port_manager set_mappings].
  destruct (is_port_allocated (port_manager self) (row_Port tunnel)) eqn:Ea; simpl.
  - apply is_port_allocated_spec in Ea.
    pose proof (mark_if_needed_grows self (row_Id tunnel)
      {| ti_port := row_Port tunnel;
         ti_service := service_of (default EmptyString (row_Remark tunnel))
                         (default EmptyString (row_TargetStr tunnel));
         ti_client_id := client_id;
         ti_target := default EmptyString (row_TargetStr tunnel);
         ti_remark := default EmptyString (row_Remark tunnel) |}
      (port_manager self)) as Hg.
    destruct self. apply Hg; auto.
  - unfold _mark_port_allocated. destruct (time_time w) as [now w1]. simpl.
    apply (mark_if_needed_grows self (row_Id tunnel)
      {| ti_port := row_Port tunnel;
         ti_service := service_of (default EmptyString (row_Remark tunnel))
                         (default EmptyString (row_TargetStr tunnel));
         ti_client_id := client_id;
         ti_target := default EmptyString (row_TargetStr tunnel);
         ti_remark := default EmptyString (row_Remark tunnel) |});
      simpl; eauto.
Qed.

Lemma load_rows_grows client_id rows self w :
  grows self
    (fst (foldl (λ sw tunnel, load_row client_id (fst sw) (snd sw) tunnel)
            (self, w) rows)).
Proof.
  revert self w. induction rows as [|row rows IH]; intros self w; simpl.
  - apply grows_refl.
  - destruct (load_row client_id self w row) as [self1 w1] eqn:E.
    eapply grows_trans; [|apply IH].
    pose proof (load_row_grows client_id self w row) as Hg. by rewrite E in Hg.
Qed.

Lemma load_tunnel_mappings_grows self w :
  grows self (fst (_load_tunnel_mappings self w)).
Proof.
  unfold _load_tunnel_mappings.
  destruct (Nps.list_tunnels _ _ w) as [tunnels w1]. apply load_rows_grows.
Qed.

Lemma get_tunnel_info_grows self tunnel_id w r self' w' :
  get_tunnel_info self tunnel_id w = (r, self', w') → grows self self'.
Proof.
  unfold get_tunnel_info.
  destruct (ODict.get tunnel_id (tunnel_mappings self));
    [intros [= <- <- _]; apply grows_refl|].
  destruct (Nps.get_tunnel _ _ w) as [[resp|] w1];
    [|intros [= <- <- _]; apply grows_refl].
  destruct (bool_decide (r_code resp = Some 1));
    [|intros [= <- <- _]; apply grows_refl].
  destruct (r_data resp) as [data|]; [|intros [= <- <- _]; apply grows_refl].
  destruct (td_Id data), (td_Port data) as [p|], (td_ClientId data) as [c|];
    try (intros [= <- <- _]; apply grows_refl).
  cbn [port_manager set_mappings].
  destruct (is_port_allocated (port_manager self) p) eqn:Ea; simpl.
  - apply is_port_allocated_spec in Ea. intros [= <- <- _].
    pose proof (mark_if_needed_grows self tunnel_id
      {| ti_port := p;
         ti_service := service_of (default EmptyString (td_Remark data))
                         (default EmptyString (td_TargetStr data));
         ti_client_id := c;
         ti_target := default EmptyString (td_TargetStr data);
         ti_remark := default EmptyString (td_Remark data) |}
      (port_manager self)) as Hg.
    destruct self. apply Hg; auto.
  - unfold _mark_port_allocated. destruct (time_time w1) as [now w2]. simpl.
    intros [= <- <- _].
    apply (mark_if_needed_grows self tunnel_id
      {| ti_port := p;
         ti_service := service_of (default EmptyString (td_Remark data))
                         (default EmptyString (td_TargetStr data));
         ti_client_id := c;
         ti_target := default EmptyString (td_TargetStr data);
         ti_remark := default EmptyString (td_Remark data) |});
      simpl; eauto.
Qed.

Lemma create_service_tunnels_sound tm0 services result self w :
  0 ≤ range_start (config (port_manager tm0)) →
  sound tm0 self →
  sound tm0 (snd (fst (foldl create_service_tunnel (result, self, w) services))).
Proof.
  intros Hnn. revert result self w.
  induction services as [|sc services IH]; intros result self w Hs; [done|].
  cbn [foldl].
  destruct (create_service_tunnel (result, self, w) sc) as [[result1 self1] w1] eqn:E.
  apply IH. unfold create_service_tunnel in E.
  destruct (negb (Py.truthy_str (sc_name sc)) || negb (Py.truthy_str (sc_target sc)));
    [by injection E as _ <- _|].
  destruct (create_tunnel self _ _ _ _ _ w) as [[t self2] w2] eqn:Ec.
  destruct Hs as (Hset & Hinv & Hown).
  assert (sound tm0 self2).
  { pose proof (create_tunnel_effect _ _ _ _ _ _ _ _ _ _ Ec) as [Hs1 _].
    split; [by eapply same_setup_trans|].
    eapply create_tunnel_keeps_invariants; [|exact Hinv|exact Hown|exact Ec].
    destruct Hset as [_ Hc]. by rewrite Hc. }
  destruct t; by injection E as _ <- _.
Qed.

Lemma clear_tunnels_sound tm0 tunnels count self w :
  sound tm0 self →
  sound tm0 (snd (fst (foldl clear_one (count, self, w) tunnels))).
Proof.
  revert count self w.
  induction tunnels as [|t tunnels IH]; intros count self w Hs; [done|].
  cbn [foldl].
  destruct (clear_one (count, self, w) t) as [[count1 self1] w1] eqn:E.
  apply IH. unfold clear_one in E.
  destruct (Py.truthy_int (tunnel_id t)); [|by injection E as _ <- _].
  destruct (tunnel_id t) as [id|]; [|by injection E as _ <- _].
  destruct (delete_tunnel self id w) as [[deleted self2] w2] eqn:Ed.
  destruct Hs as (Hset & Hinv & Hown).
  assert (sound tm0 self2).
  { pose proof (delete_tunnel_effect _ _ _ _ _ _ Ed) as [Hs1 _].
    split; [by eapply same_setup_trans|].
    eapply delete_tunnel_keeps_invariants; eauto. }
  destruct deleted; by injection E as _ <- _.
Qed.

(** Deleting cached tunnels releases no port outside the cache. *)
Lemma clear_tunnels_keeps_port p tunnels count self w :
  allocated self p →
  (∀ e, e ∈ tunnel_mappings self → ti_port e.2 ≠ p) →
  allocated (snd (fst (foldl clear_one (count, self, w) tunnels))) p.
Proof.
  revert count self w.
  induction tunnels as [|t tunnels IH]; intros count self w Hp Hc; [done|].
  cbn [foldl].
  destruct (clear_one (count, self, w) t) as [[count1 self1] w1] eqn:E.
  unfold clear_one in E.
  destruct (Py.truthy_int (tunnel_id t)); [|injection E as _ <- _; by apply IH].
  destruct (tunnel_id t) as [id|]; [|injection E as _ <- _; by apply IH].
  destruct (delete_tunnel self id w) as [[deleted self2] w2] eqn:Ed.
  assert (allocated self2 p ∧ ∀ e, e ∈ tunnel_mappings self2 → ti_port e.2 ≠ p)
    as [? ?].
  { apply delete_tunnel_effect in Ed as [_ [->|Hd]]; [done|].
    destruct Hd as (info & Hget & _ & Hmap & Hal).
    apply odict_get_elem in Hget. split.
    - apply Hal. split; [done|]. intros ->. by apply (Hc _ Hget).
    - intros e He. rewrite Hmap in He. apply odict_elem_of_del in He as [? _]. auto. }
  destruct deleted; injection E as _ <- _; by apply IH.
Qed.

End Invariants.

Section Reachability.
Context {W : Type} {Ops : World W}.
Import PortMgr Tunnels.

Lemma load_row_allocates client_id self w tunnel :
  same_setup self (fst (load_row client_id self w tunnel)) ∧
  ∀ q, allocated (fst (load_row client_id self w tunnel)) q →
       allocated self q ∨ q = row_Port tunnel.
Proof.
  unfold load_row. cbn [port_manager set_mappings].
  destruct (is_port_allocated (port_manager self) (row_Port tunnel)); simpl.
  - split; [done | auto].
  - unfold _mark_port_allocated. destruct (time_time w) as [now w1]. simpl.
    split; [done|]. intros q. unfold allocated. simpl.
    destruct (decide (q = row_Port tunnel)) as [->|?]; [auto|].
    rewrite lookup_insert_ne by done. auto.
Qed.

Lemma load_rows_pool_inv client_id rows self w :
  rows_in_pool (config (port_manager self)) rows →
  pool_inv self →
  pool_inv (fst (foldl (λ sw tunnel, load_row client_id (fst sw) (snd sw) tunnel)
                   (self, w) rows)).
Proof.
  revert self w. induction rows as [|row rows IH]; intros self w Hrows Hinv; [done|].
  cbn [foldl fst snd].
  destruct (load_row client_id self w row) as [self1 w1] eqn:E.
  pose proof (load_row_allocates client_id self w row) as [[_ Hcfg] Hal].
  rewrite E in Hcfg, Hal. simpl in Hcfg, Hal.
  apply IH.
  - rewrite Hcfg. intros r Hr. apply Hrows. by right.
  - intros q Hq. rewrite Hcfg. destruct (Hal q Hq) as [?| ->]; [auto|].
    apply Hrows. by left.
Qed.

(** C5, amended.  From a fresh orchestrator, after any sequence of
    allocations, releases, tunnel creations and reconciliations whose
    tunnel lists only name ports of the pool, every port of the
    allocation table has one record, lies in the configured range and is
    not reserved. *)
Theorem allocated_ports_stay_in_pool tm :
  reachable rows_in_pool tm →
  pool_inv tm ∧
  NoDup (map_to_list (allocated_ports (port_manager tm))).*1.
Proof.
  intros Hr. split; [|apply NoDup_fst_map_to_list].
  induction Hr as [client pool | tm service_name client_id preferred_port w _ IH
                  | tm port _ IH
                  | tm target service_name client_id preferred_port remark w _ IH
                  | tm w _ IH Hrows].
  - intros p [r Hp]. simpl in Hp. by rewrite lookup_empty in Hp.
  - destruct (allocate_port _ _ _ _ w) as [[[x|] pm1] w1] eqn:Ha; simpl.
    + apply allocate_port_Some in Ha as (Hpool & _ & Hcfg & t & Ht).
      intros q. unfold allocated. simpl. rewrite Hcfg, Ht.
      destruct (decide (q = x)) as [->|?]; [done|].
      rewrite lookup_insert_ne by done. apply IH.
    + apply allocate_port_None in Ha as ->. by destruct tm.
  - unfold release_port.
    destruct (allocated_ports (port_manager tm) !! port) eqn:Hp; simpl;
      [|by destruct tm].
    intros q. unfold allocated. simpl.
    destruct (decide (q = port)) as [->|?].
    + rewrite lookup_delete_eq. by intros [? ?].
    + rewrite lookup_delete_ne by done. apply IH.
  - destruct (create_tunnel _ _ _ _ _ _ w) as [[r tm1] w1] eqn:Hc. simpl.
    apply create_tunnel_effect in Hc as [[_ Hcfg] Hc].
    intros q Hq. rewrite Hcfg. destruct r as [t|].
    + destruct Hc as (Hpool & _ & Hal & _).
      apply Hal in Hq as [->|?]; [done | by apply IH].
    + destruct Hc as (_ & Hal & _). apply IH. auto.
  - unfold _load_tunnel_mappings.
    destruct (Nps.list_tunnels _ _ w) as [tunnels w1]. simpl in Hrows.
    by apply load_rows_pool_inv.
Qed.

(** C10, amended.  Each operation of the orchestrator keeps the ports
    of the cached tunnels allocated when the pool holds no negative
    port and no two cached tunnels share a port; the operations that do
    not copy records from the broker also keep the cached ports
    distinct.  A [create_tunnel] that returns a record without id leaves
    the cache as it was: the port of the record is allocated, no
    [list_tunnels] shows the tunnel, and no [clear_service_tunnels]
    releases its port. *)
Theorem cached_ports_stay_allocated :
  (∀ op tm (w : W),
     0 ≤ range_start (config (port_manager tm)) →
     cache_inv tm → ports_owned_once tm →
     cache_inv (fst (perform op tm w)) ∧
     match op with
     | GetTunnelInfo _ | LoadTunnelMappings => True
     | _ => ports_owned_once (fst (perform op tm w))
     end) ∧
  (∀ tm target service_name client_id preferred_port remark (w : W) t tm' w',
     create_tunnel tm target service_name client_id preferred_port remark w
       = (Some t, tm', w') →
     tunnel_id t = None →
     tunnel_mappings tm' = tunnel_mappings tm ∧
     allocated tm' (ti_port (info t)) ∧
     (∀ client service, list_tunnels tm' client service = list_tunnels tm client service) ∧
     (0 ≤ range_start (config (port_manager tm)) → cache_inv tm →
      ∀ service client (w2 : W),
        allocated (snd (fst (clear_service_tunnels tm' service client w2)))
          (ti_port (info t)))).
Proof.
  split.
  - intros op tm w Hnn Hinv Hown. destruct op; simpl.
    + destruct (create_tunnel tm _ _ _ _ _ w) as [[r tm1] w1] eqn:E. simpl.
      by eapply create_tunnel_keeps_invariants.
    + destruct (delete_tunnel tm _ w) as [[r tm1] w1] eqn:E. simpl.
      by eapply delete_tunnel_keeps_invariants.
    + destruct (update_tunnel tm _ _ _ _ w) as [[r tm1] w1] eqn:E. simpl.
      by eapply update_tunnel_keeps_invariants.
    + destruct (get_tunnel_info tm _ w) as [[r tm1] w1] eqn:E. simpl.
      split; [|done]. eapply grows_cache_inv; [|done]. by eapply get_tunnel_info_grows.
    + unfold create_service_tunnels.
      pose proof (create_service_tunnels_sound tm services [] tm w Hnn) as Hs.
      destruct (foldl _ _ services) as [[r tm1] w1]. simpl in *.
      by apply Hs.
    + unfold clear_service_tunnels.
      pose proof (clear_tunnels_sound tm
                    (list_tunnels tm client_id (Some service_name)) 0 tm w) as Hs.
      destruct (foldl _ _ _) as [[r tm1] w1]. simpl in *.
      by apply Hs.
    + split; [|done]. eapply grows_cache_inv; [|done]. apply load_tunnel_mappings_grows.
    + split; [intros e He; apply (Hinv e He) | exact Hown].
  - intros tm target service_name client_id preferred_port remark w t tm' w' Hc Hid.
    apply create_tunnel_effect in Hc as [[_ Hcfg] (Hpool & Hfresh & Hal & Hmap)].
    rewrite Hid in Hmap. split; [done|].
    split; [apply Hal; by left|].
    split; [intros client service; unfold list_tunnels; by rewrite Hmap|].
    intros Hnn Hinv service client w2. unfold clear_service_tunnels.
    apply clear_tunnels_keeps_port; [apply Hal; by left|].
    intros e He Hp. rewrite Hmap in He. apply Hinv in He.
    unfold allocated in He. rewrite Hp in He.
    destruct Hfresh as [Hf|?]; [|destruct Hpool as [[? _] _]; lia].
    rewrite Hf in He. by destruct He.
Qed.

End Reachability.

(** ** The container lifecycle *)

Section Lifecycle.
Context {W : Type} {Ops : World W}.
Import PortMgr Tunnels Containers.
#[local] Arguments fetch_tunnel_id : simpl never.

Lemma odict_set_fresh {V} (k : string) (v : V) (d : list (string * V)) :
  k ∉ d.*1 → ODict.set k v d = (d ++ [(k, v)])%list.
Proof.
  induction d as [|[k0 v0] d IH]; simpl; [done|].
  rewrite not_elem_of_cons. intros [? ?]. case_decide; [done|]. by rewrite IH.
Qed.

Lemma create_tunnels_provisioned name ip services :
  NoDup services.*1 →
  ∀ created0 ports0 failed0 tm w created ports failed tm1 w1,
    (∀ s, s ∈ services.*1 → s ∉ created0.*1) →
    create_tunnels name ip services created0 ports0 failed0 tm w
      = (created, ports, failed, tm1, w1) →
    ∃ extra, created = (created0 ++ extra)%list ∧ provisioned tm extra tm1.
Proof.
  induction services as [|[service_name internal_port] services IH];
    intros Hnd created0 ports0 failed0 tm w created ports failed tm1 w1 Hfresh Hc.
  { injection Hc as <- _ _ <- _. exists []. rewrite app_nil_r. split; [done|].
    split; [done|]. split; [auto|]. split; [done|].
    intros _ st id Hst. by apply elem_of_nil in Hst. }
  simpl in Hnd. apply NoDup_cons in Hnd as [Hhead Hnd].
  cbn [create_tunnels] in Hc.
  destruct (create_tunnel tm _ service_name None None _ w) as [[r tm'] w'] eqn:Ect.
  apply create_tunnel_effect in Ect as [Hset Hct].
  destruct r as [t|].
  - rewrite odict_set_fresh in Hc by (apply Hfresh; left).
    apply IH in Hc as (extra & -> & Hset' & Hal' & Hget' & Hown'); [|done|].
    2:{ intros s Hs. rewrite fmap_app, elem_of_app. simpl.
        rewrite list_elem_of_singleton. intros [?| ->]; [|done].
        by apply (Hfresh s); [right|]. }
    destruct Hct as (_ & _ & Hal & Hmap).
    exists ((service_name, t) :: extra). split; [by rewrite <- app_assoc|].
    split; [by eapply same_setup_trans|]. split; [|split].
    + intros q Hq. destruct (Hal' q Hq) as [Hq'|(st & Hst & ->)].
      * apply Hal in Hq' as [->|?]; [|by left].
        right. exists (service_name, t). split; [left | done].
      * right. exists st. split; [by right | done].
    + intros id Hid. unfold batch_ids in Hid. simpl in Hid.
      apply not_elem_of_cons in Hid as [Hne Hid]. rewrite Hget' by done.
      destruct (tunnel_id t) as [id'|]; rewrite Hmap; [|done].
      rewrite odict_get_set. case_decide; [congruence | done].
    + unfold batch_ids. simpl. intros Hnd' st id Hst Hid.
      apply NoDup_cons in Hnd' as [Hnew Hnd'].
      apply elem_of_cons in Hst as [->|Hst]; [|by apply Hown'].
      simpl in Hid. rewrite Hget' by (by rewrite <- Hid).
      rewrite Hid in Hmap. rewrite Hmap, odict_get_set. by case_decide.
  - destruct Hct as (Hmap & Hal & _).
    assert (Hnone : provisioned tm [] tm').
    { split; [done|]. split; [auto|]. split; [by rewrite Hmap|].
      intros _ st id Hst. by apply elem_of_nil in Hst. }
    destruct (String.eqb service_name "ssh").
    + injection Hc as <- _ _ <- _. exists []. by rewrite app_nil_r.
    + apply IH in Hc as (extra & -> & Hset' & Hal' & Hget' & Hown'); [|done|].
      2:{ intros s Hs. apply Hfresh. by right. }
      exists extra. split; [done|].
      split; [by eapply same_setup_trans|]. split; [|split].
      * intros q Hq. destruct (Hal' q Hq) as [?|?]; auto.
      * intros id Hid. by rewrite Hget', Hmap.
      * done.
Qed.

(** [delete_tunnels] allocates nothing. *)
Lemma delete_tunnels_only_releases tunnels :
  ∀ tm ok w ok' tm' w',
    delete_tunnels tm tunnels ok w = (ok', tm', w') →
    same_setup tm tm' ∧
    (∀ q, allocated tm' q → allocated tm q) ∧
    (∀ e, e ∈ tunnel_mappings tm' → e ∈ tunnel_mappings tm).
Proof.
  induction tunnels as [|[service t] tunnels IH]; intros tm ok w ok' tm' w' Hd.
  { by injection Hd as _ <- _. }
  cbn [delete_tunnels] in Hd. destruct (tunnel_id t) as [id|]; [|by eapply IH].
  destruct (Tunnels.delete_tunnel tm id w) as [[deleted tm1] w1] eqn:Ed.
  apply IH in Hd as (Hset' & Hal' & Hc').
  apply delete_tunnel_effect in Ed as [Hset Hd1].
  split; [by eapply same_setup_trans|].
  destruct Hd1 as [->|(info & _ & _ & Hmap & Hal)]; [done|]. split.
  - intros q Hq. apply Hal' in Hq. by apply Hal in Hq as [? _].
  - intros e He. apply Hc' in He. rewrite Hmap in He.
    by apply odict_elem_of_del in He as [? _].
Qed.

(** Where every record of the batch has its own id, cached with the
    record's port, and the broker accepts the deletions, [delete_tunnels]
    releases the port of every record. *)
Lemma delete_tunnels_releases tunnels :
  ∀ tm ok w ok' tm' w',
    delete_tunnels tm tunnels ok w = (ok', tm', w') →
    NoDup (batch_ids tunnels) →
    (∀ st, st ∈ tunnels →
       ∃ id, tunnel_id st.2 = Some id ∧
             ODict.get id (tunnel_mappings tm) = Some (info st.2) ∧
             broker_accepts_delete (nps tm) id) →
    ∀ st, st ∈ tunnels →
      ¬ allocated tm' (ti_port (info st.2)) ∧
      ∀ id, tunnel_id st.2 = Some id → ODict.get id (tunnel_mappings tm') = None.
Proof.
  induction tunnels as [|[service t] tunnels IH];
    intros tm ok w ok' tm' w' Hd Hnd Hall st Hst; [by apply elem_of_nil in Hst|].
  cbn [delete_tunnels] in Hd.
  destruct (Hall (service, t)) as (id & Hid & Hget & Hacc); [left|].
  simpl in Hid, Hget. rewrite Hid in Hd.
  destruct (Tunnels.delete_tunnel tm id w) as [[deleted tm1] w1] eqn:Ed.
  pose proof Ed as Ed'. apply delete_tunnel_effect in Ed' as [Hset Hd1].
  unfold Tunnels.delete_tunnel in Ed. rewrite Hget in Ed.
  specialize (Hacc w). destruct (Nps.delete_tunnel (nps tm) id w) as [res w2].
  simpl in Hacc. subst res. simpl in Ed.
  destruct Hd1 as [Heq|(info0 & Hget0 & _ & Hmap & Hal)].
  { exfalso. subst tm1. destruct (release_port _ _) as [b pm1].
    injection Ed as _ Etm _. apply (f_equal tunnel_mappings) in Etm. simpl in Etm.
    apply (f_equal (ODict.get id)) in Etm.
    rewrite odict_get_del, Hget in Etm. by case_decide. }
  rewrite Hget in Hget0. injection Hget0 as <-.
  unfold batch_ids in Hnd. simpl in Hnd. apply NoDup_cons in Hnd as [Hnew Hnd].
  apply elem_of_cons in Hst as [->|Hst].
  - simpl. apply delete_tunnels_only_releases in Hd as (_ & Hmono & Hsub). split.
    + intros Hq. apply Hmono, Hal in Hq as [_ ?]. done.
    + intros id' Hid'. rewrite Hid in Hid'. injection Hid' as <-.
      destruct (ODict.get id (tunnel_mappings tm')) as [v|] eqn:Hv; [|done].
      apply odict_get_elem, Hsub in Hv. rewrite Hmap in Hv.
      by apply odict_elem_of_del in Hv as [_ ?].
  - eapply IH; [exact Hd | exact Hnd | | exact Hst].
    intros st' Hst'. destruct (Hall st') as (id' & Hid' & Hget' & Hacc'); [by right|].
    exists id'. split; [done|]. split.
    + rewrite Hmap, odict_get_del. case_decide; [|done].
      subst id'. exfalso. apply Hnew. rewrite Hid, <- Hid'.
      apply list_elem_of_fmap. by exists st'.
    + destruct Hset as [-> _]. done.
Qed.

(** Once set, [tunnel_creation_failed] stays set. *)
Lemma create_tunnels_failed_stays name ip services :
  ∀ created0 ports0 tm w,
    (create_tunnels name ip services created0 ports0 true tm w).1.1.2 = true.
Proof.
  induction services as [|[service_name internal_port] services IH];
    intros created0 ports0 tm w; [done|].
  cbn [create_tunnels].
  destruct (create_tunnel tm _ service_name None None _ w) as [[[t|] tm1] w1];
    [apply IH|].
  destruct (String.eqb service_name "ssh"); [done | apply IH].
Qed.

(** A service whose tunnel fails sets [tunnel_creation_failed]. *)
Lemma create_tunnels_failed name ip services tm w :
  service_fails name ip services tm w →
  ∀ created0 ports0 failed0,
    (create_tunnels name ip services created0 ports0 failed0 tm w).1.1.2 = true.
Proof.
  induction 1 as [[service_name internal_port] rest tm w tm1 w1 Hcall
                 |[service_name internal_port] rest tm w r tm1 w1 Hcall _ IH];
    intros created0 ports0 failed0; unfold service_tunnel in Hcall; simpl in Hcall;
    cbn [create_tunnels]; rewrite Hcall.
  - destruct (String.eqb service_name "ssh");
      [done | apply create_tunnels_failed_stays].
  - destruct r as [t|]; [apply IH|].
    destruct (String.eqb service_name "ssh");
      [done | apply create_tunnels_failed_stays].
Qed.

(** And the flag is set by nothing else. *)
Lemma create_tunnels_failed_inv name ip services :
  ∀ created0 ports0 tm w,
    (create_tunnels name ip services created0 ports0 false tm w).1.1.2 = true →
    service_fails name ip services tm w.
Proof.
  induction services as [|[service_name internal_port] services IH];
    intros created0 ports0 tm w; [done|].
  cbn [create_tunnels].
  destruct (create_tunnel tm _ service_name None None _ w) as [[r tm1] w1] eqn:Hcall.
  destruct r as [t|].
  - intros Hf. eapply fails_later; [exact Hcall|]. by eapply IH.
  - intros _. eapply fails_now. exact Hcall.
Qed.

(** A failed ssh tunnel ends the loop. *)
Lemma create_tunnels_ssh_breaks name ip port rest created0 ports0 failed0 tm w tmA wA :
  service_tunnel name ip ("ssh", port) tm w = (None, tmA, wA) →
  create_tunnels name ip (("ssh", port) :: rest) created0 ports0 failed0 tm w
    = (created0, ports0, true, tmA, wA).
Proof.
  unfold service_tunnel. simpl. intros Hcall. cbn [create_tunnels]. by rewrite Hcall.
Qed.

(** The rollback asks for no deletion of a record without id. *)
Lemma delete_tunnels_with_id tunnels :
  ∀ tm ok w, delete_tunnels tm tunnels ok w = delete_tunnels tm (with_id tunnels) ok w.
Proof.
  induction tunnels as [|[service t] tunnels IH]; intros tm ok w; [done|].
  unfold with_id. rewrite filter_cons. simpl.
  destruct (tunnel_id t) as [id|] eqn:Hid.
  - rewrite decide_True by (by eexists). cbn [delete_tunnels]. rewrite Hid.
    destruct (Tunnels.delete_tunnel tm id w) as [[deleted tm1] w1]. apply IH.
  - rewrite decide_False by (by intros [? ?]). apply IH.
Qed.

#[local] Arguments create_tunnels : simpl never.
#[local] Arguments services_to_tunnel : simpl never.
#[local] Arguments delete_tunnels : simpl never.

(** C1, amended.  A [create_container] on a name the daemon does not
    know, whose container started and got an address, and for which the
    tunnel of one of the services fails: the loop ends with
    [tunnel_creation_failed] set and the call returns [None]; the name
    has no entry left in the image map, the image history and the tunnel
    bindings, in memory and in the two state files; [delete_tunnel] was
    called for every record of the batch that has an id and for no
    other, and then the container was stopped and removed; every port
    allocated afterwards was allocated before the call or belongs to a
    record of the batch.  When the records of the batch have pairwise
    distinct ids whose deletion the broker accepts, no record of the
    batch keeps its port or its cache entry.  When it is the ssh tunnel
    that fails, no other tunnel is asked for: the batch is empty and the
    orchestrator is as the failed call left it. *)
Theorem failed_provisioning_rolls_back
    self image name container_config (w w0 w1 w3 : W) e container ip :
  containers_get name w = (Raise e, w0) →
  is_NotFound e = true →
  containers_run (run_args self image name container_config) w0 = (Ok container, w1) →
  _get_container_ip name (time_sleep 5 w1) = (Some ip, w3) →
  service_fails name ip (services_to_tunnel self) (tunnel_manager self) w3 →
  ∃ self' w' created ports tm1 w4,
    create_tunnels name ip (services_to_tunnel self) [] [] false
      (tunnel_manager self) w3 = (created, ports, true, tm1, w4) ∧
    create_container self image name container_config w = (None, self', w') ∧
    container_images self' !! name = None ∧
    image_history self' !! name = None ∧
    container_tunnels self' !! name = None ∧
    image_mapping_file self' =
      Some {| file_current := container_images self';
              file_history := image_history self' |} ∧
    container_state_file self' = Some (container_tunnels self') ∧
    tunnel_manager self' = snd (fst (delete_tunnels tm1 (with_id created) true w4)) ∧
    w' = stop_and_remove container
           (snd (delete_tunnels tm1 (with_id created) true w4)) ∧
    (∀ q, allocated (tunnel_manager self') q →
          allocated (tunnel_manager self) q
          ∨ ∃ st, st ∈ created ∧ q = ti_port (info st.2)) ∧
    (NoDup (batch_ids created) →
     (∀ st, st ∈ created →
        ∃ id, tunnel_id st.2 = Some id ∧
              broker_accepts_delete (nps (tunnel_manager self)) id) →
     ∀ st, st ∈ created →
       ¬ allocated (tunnel_manager self') (ti_port (info st.2)) ∧
       ∀ id, tunnel_id st.2 = Some id →
             ODict.get id (tunnel_mappings (tunnel_manager self')) = None) ∧
    (∀ port tmA wA,
       ("ssh", port) ∈ services_to_tunnel self →
       service_tunnel name ip ("ssh", port) (tunnel_manager self) w3 = (None, tmA, wA) →
       created = [] ∧ tm1 = tmA ∧ w4 = wA ∧
       tunnel_manager self' = tmA ∧ w' = stop_and_remove container wA).
Proof.
  intros Hget Hnf Hrun Hip Hfails.
  pose proof (create_tunnels_failed _ _ _ _ _ Hfails [] [] false) as Hflag.
  destruct (create_tunnels name ip (services_to_tunnel self) [] [] false
              (tunnel_manager self) w3) as [[[[created ports] failed] tm1] w4] eqn:Hct.
  simpl in Hflag. subst failed.
  assert (Hssh : ∀ port tmA wA,
            ("ssh", port) ∈ services_to_tunnel self →
            service_tunnel name ip ("ssh", port) (tunnel_manager self) w3
              = (None, tmA, wA) →
            created = [] ∧ tm1 = tmA ∧ w4 = wA).
  { intros port tmA wA Hin Hcall.
    assert (port = default 22 (cfg_ssh_port (CONFIG self))) as ->.
    { unfold services_to_tunnel in Hin.
      apply elem_of_cons in Hin as [[= ->]|Hin]; [done|].
      apply elem_of_cons in Hin as [[=]|Hin].
      apply elem_of_cons in Hin as [[=]|Hin]. by apply elem_of_nil in Hin. }
    unfold services_to_tunnel in Hct.
    rewrite (create_tunnels_ssh_breaks _ _ _ _ _ _ _ _ _ _ _ Hcall) in Hct.
    by injection Hct as <- _ <- <-. }
  unfold create_container. rewrite Hget, Hnf. simpl. rewrite Hrun, Hip.
  change (services_to_tunnel _) with (services_to_tunnel self).
  simpl. rewrite Hct.
  unfold rollback. simpl. rewrite (delete_tunnels_with_id created).
  destruct (delete_tunnels tm1 (with_id created) true w4) as [[ok tm2] wd] eqn:Hd.
  eexists _, _, created, ports, tm1, w4. split; [reflexivity|].
  split; [reflexivity|]. rewrite Hd. simpl.
  split; [apply lookup_delete_eq|]. split; [apply lookup_delete_eq|].
  split; [apply lookup_delete_eq|]. split; [done|]. split; [done|].
  split; [done|]. split; [done|].
  rewrite <- delete_tunnels_with_id in Hd.
  pose proof Hct as Hct'.
  apply create_tunnels_provisioned in Hct' as (extra & -> & Hprov).
  2:{ unfold services_to_tunnel. simpl.
      repeat (apply NoDup_cons; split; [set_solver|]). apply NoDup_nil_2. }
  2:{ intros s _. simpl. apply not_elem_of_nil. }
  simpl in *. destruct Hprov as (Hset & Hal & Hothers & Hcached).
  pose proof (delete_tunnels_only_releases _ _ _ _ _ _ _ Hd) as (Hset2 & Hmono & _).
  split; [intros q Hq; by apply Hal, Hmono|].
  split.
  - intros Hnd Hacc st Hst.
    eapply (delete_tunnels_releases extra); [exact Hd | exact Hnd | | exact Hst].
    intros st' Hst'. destruct (Hacc st' Hst') as (id & Hid & Hok).
    exists id. split; [done|]. split; [by eapply Hcached|].
    destruct Hset as [-> _]. done.
  - intros port tmA wA Hin Hcall.
    destruct (Hssh port tmA wA Hin Hcall) as (-> & -> & ->).
    unfold delete_tunnels in Hd. injection Hd as _ <- <-. done.
Qed.

End Lifecycle.

(** ** Python strings *)

Lemma prefix_spec (s1 s2 : string) :
  String.prefix s1 s2 = true ↔ ∃ b, s2 = s1 ++ b.
Proof.
  revert s2. induction s1 as [|c s1 IH]; intros s2.
  - destruct s2; simpl; (split; [intros _; by eexists | done]).
  - destruct s2 as [|c2 s2]; simpl; [split; [done | by intros [b ?]]|].
    destruct (Ascii.ascii_dec c c2) as [->|Hne].
    + rewrite IH. split; intros [b Hb]; exists b; [by rewrite Hb | by injection Hb].
    + split; [done | intros [b Hb]; by injection Hb].
Qed.

(** [needle in hay] holds exactly when [hay] is some text, then
    [needle], then some text. *)
Lemma contains_spec (needle hay : string) :
  Py.contains needle hay = true ↔ ∃ a b, hay = a ++ needle ++ b.
Proof.
  induction hay as [|c hay IH].
  - cbn [Py.contains]. rewrite orb_false_r, prefix_spec. split.
    + intros [b Hb]. by exists EmptyString, b.
    + intros (a & b & Hab). destruct a as [|? ?]; [by exists b | done].
  - cbn [Py.contains]. rewrite orb_true_iff, prefix_spec, IH. split.
    + intros [[b Hb]|(a & b & Hab)].
      * by exists EmptyString, b.
      * exists (String c a), b. simpl. by rewrite Hab.
    + intros (a & b & Hab). destruct a as [|c' a].
      * left. by exists b.
      * right. simpl in Hab. injection Hab as _ Hab. by exists a, b.
Qed.

(** ** Snapshots *)

Section Snapshots.
Context {W : Type} {Ops : World W}.
Import PortMgr Tunnels Containers.

Lemma find_app_first {A} (f : A → bool) (l1 l2 : list A) :
  List.find f (l1 ++ l2)%list =
  match List.find f l1 with Some x => Some x | None => List.find f l2 end.
Proof. induction l1 as [|x l1 IH]; simpl; [done|]. by destruct (f x). Qed.

(** The latest match wins. *)
Lemma find_rev_Some {A} (f : A → bool) (l : list A) (t : A) :
  List.find f (rev l) = Some t ↔
  ∃ older newer, l = (older ++ t :: newer)%list ∧ f t = true ∧
                 ∀ t', t' ∈ newer → f t' = false.
Proof.
  induction l as [|x l IH] using rev_ind.
  - simpl. split; [done|]. intros (older & newer & Hl & _). by destruct older.
  - rewrite rev_app_distr. simpl. destruct (f x) eqn:Hx.
    + split.
      * intros [= <-]. exists l, []. split; [done|]. split; [done|].
        intros t' Ht'. by apply elem_of_nil in Ht'.
      * intros (older & newer & Hl & Ht & Hnewer).
        destruct newer as [|y newer _] using rev_ind.
        -- apply app_inj_tail in Hl as [_ ->]. done.
        -- rewrite app_comm_cons, app_assoc in Hl.
           apply app_inj_tail in Hl as [_ ->].
           rewrite Hnewer in Hx; [done|]. apply elem_of_app. right. left.
    + rewrite IH. split.
      * intros (older & newer & -> & Ht & Hnewer).
        exists older, (newer ++ [x])%list. split; [by rewrite <- app_assoc|].
        split; [done|]. intros t' Ht'. apply elem_of_app in Ht' as [?|Ht']; [auto|].
        apply list_elem_of_singleton in Ht' as ->. done.
      * intros (older & newer & Hl & Ht & Hnewer).
        destruct newer as [|y newer _] using rev_ind.
        -- apply app_inj_tail in Hl as [_ ->]. congruence.
        -- rewrite app_comm_cons, app_assoc in Hl.
           apply app_inj_tail in Hl as [-> ->].
           exists older, newer. split; [done|]. split; [done|].
           intros t' Ht'. apply Hnewer. apply elem_of_app. by left.
Qed.

Lemma find_rev_None {A} (f : A → bool) (l : list A) :
  List.find f (rev l) = None ↔ ∀ t, t ∈ l → f t = false.
Proof.
  split.
  - intros Hf t Ht. apply list_elem_of_In, in_rev in Ht.
    by eapply find_none in Hf.
  - intros Hall. destruct (List.find f (rev l)) as [t|] eqn:Hf; [|done].
    apply find_some in Hf as [Hin Ht]. apply in_rev, list_elem_of_In in Hin.
    rewrite Hall in Ht by done. done.
Qed.

(** C9, amended.  Without version tag [start_from_snapshot] takes the
    last entry of the history.  With a version tag it takes the latest
    entry that is equal to the tag or whose part after the last colon
    contains the tag as a substring.  It returns [None] when the history
    is empty or no entry matches, and otherwise goes on with the entry
    taken as the image to create the container from. *)
Theorem snapshot_resolution (history : list string) :
  image_tag_to_use history None = last history ∧
  (∀ version_tag tag,
     image_tag_to_use history (Some version_tag) = Some tag ↔
     ∃ older newer,
       history = (older ++ tag :: newer)%list ∧
       version_matches version_tag tag = true ∧
       ∀ tag', tag' ∈ newer → version_matches version_tag tag' = false) ∧
  (∀ version_tag,
     image_tag_to_use history (Some version_tag) = None ↔
     ∀ tag, tag ∈ history → version_matches version_tag tag = false) ∧
  (∀ version_tag tag,
     version_matches version_tag tag = true ↔
     version_tag = tag ∨ ∃ a b, tag_part tag = a ++ version_tag ++ b) ∧
  (∀ self name version_tag (w : W),
     default [] (image_history (_load_container_images self) !! name) = history →
     image_tag_to_use history version_tag = None →
     start_from_snapshot self name version_tag w
       = (None, _load_container_images self, w)) ∧
  (∀ self name version_tag (w w1 w2 : W) tag image e,
     default [] (image_history (_load_container_images self) !! name) = history →
     image_tag_to_use history version_tag = Some tag →
     images_get tag w = (Ok image, w1) →
     containers_get name w1 = (Raise e, w2) →
     is_NotFound e = true →
     container_tunnels (_load_container_images self) !! name = None →
     start_from_snapshot self name version_tag w
       = create_container (_load_container_images self) tag name None w2).
Proof.
  split; [by destruct history|].
  split.
  { intros version_tag tag. unfold image_tag_to_use.
    destruct history as [|t0 rest] eqn:Eh; [|apply find_rev_Some].
    split; [done|]. intros (older & newer & Hl & _). by destruct older. }
  split.
  { intros version_tag. unfold image_tag_to_use.
    destruct history as [|t0 rest] eqn:Eh; [|apply find_rev_None].
    split; [|done]. intros _ tag Ht. by apply elem_of_nil in Ht. }
  split.
  { intros version_tag tag. unfold version_matches.
    rewrite orb_true_iff, String.eqb_eq, contains_spec. done. }
  split.
  - intros self name version_tag w Hh Hnone.
    unfold start_from_snapshot. by rewrite Hh, Hnone.
  - intros self name version_tag w w1 w2 tag image e Hh Hsome Himg Hget Hnf Hnt.
    unfold start_from_snapshot. rewrite Hh, Hsome, Himg, Hget, Hnf, Hnt. done.
Qed.

(** C2 on the code.  No call of [stop_and_commit] returns an image tag.
    When the container is there and [stop_container] returned [True],
    the call raises [UnboundLocalError] where it builds the version tag:
    the manager is the one [stop_container] left, with the image file
    read again, and the world is the one [stop_container] left, so that
    nothing was committed and the history got no entry. *)
Theorem snapshot_raises_unbound_local self name commit_message (w : W) :
  (∀ tag,
     fst (fst (stop_and_commit self name commit_message w)) ≠ Returned (Some tag)) ∧
  (∀ w1 w2 container self1,
     containers_get name w = (Ok container, w1) →
     stop_container self name w1 = (true, self1, w2) →
     stop_and_commit self name commit_message w =
       (Raised (UnboundLocalError "timestamp"), _load_container_images self1, w2)).
Proof.
  split.
  - intros tag. unfold stop_and_commit.
    destruct (containers_get name w) as [[container|e] w1]; [|done].
    destruct (stop_container self name w1) as [[[|] self1] w2]; simpl; done.
  - intros w1 w2 container self1 Hget Hstop.
    unfold stop_and_commit. by rewrite Hget, Hstop.
Qed.

(** C4 on the code.  [stop_container] returns [False] whenever
    [containers.get] raised, [NotFound] included.  When [containers.get]
    returned a container, the result is that of the tunnel deletions
    alone, whatever [container.stop] did: [True] when no tunnel is bound
    to the name.  The tunnels bound to the name are deleted in either
    case, and the binding is forgotten. *)
Theorem stop_result_misreads_runtime_outcome self name (w : W) :
  (∀ e w1,
     containers_get name w = (Raise e, w1) →
     fst (fst (stop_container self name w)) = false) ∧
  (∀ c w1,
     containers_get name w = (Ok c, w1) →
     fst (fst (stop_container self name w)) =
       match container_tunnels self !! name with
       | Some tunnels =>
           fst (fst (delete_tunnels (tunnel_manager self) tunnels true
                       (snd (container_stop c (Some 10) w1))))
       | None => true
       end) ∧
  (∀ tunnels,
     container_tunnels self !! name = Some tunnels →
     ∃ w1,
       tunnel_manager (snd (fst (stop_container self name w))) =
         snd (fst (delete_tunnels (tunnel_manager self) tunnels true w1)) ∧
       container_tunnels (snd (fst (stop_container self name w))) !! name = None).
Proof.
  split; [|split].
  - intros e w1 Hget. unfold stop_container. rewrite Hget.
    destruct (container_tunnels self !! name); [|done].
    by destruct (delete_tunnels _ _ _ _) as [[? ?] ?].
  - intros c w1 Hget. unfold stop_container. rewrite Hget.
    destruct (container_tunnels self !! name); [|done]. simpl.
    by destruct (delete_tunnels _ _ _ _) as [[? ?] ?].
  - intros tunnels Ht. unfold stop_container. rewrite Ht.
    destruct (containers_get name w) as [[c|e] w1].
    + exists (snd (container_stop c (Some 10) w1)). simpl.
      destruct (delete_tunnels _ _ _ _) as [[? ?] ?]. simpl.
      split; [done | apply lookup_delete_eq].
    + exists w1. simpl.
      destruct (delete_tunnels _ _ _ _) as [[? ?] ?]. simpl.
      split; [done | apply lookup_delete_eq].
Qed.

End Snapshots.

(** ** The port pool: allocation strategies and bulk release *)

Section PoolStrategies.
Context {W : Type} {Ops : World W}.
Import PortMgr PortQueries.
















End PoolStrategies.

(** ** The broker client: the retry loop and the requests *)

Section BrokerRequests.
Context {W : Type} {Ops : World W}.
Import Nps NpsClients.








End BrokerRequests.

(** ** The tunnel orchestrator: what each operation does to the cache *)

Section CacheOperations.
Context {W : Type} {Ops : World W}.
Import PortMgr PortQueries Tunnels.
#[local] Arguments fetch_tunnel_id : simpl never.

Lemma odict_del_filter {V} (k : Z) (d : list (Z * V)) :
  ODict.del k d = filter (λ e, e.1 ≠ k) d.
Proof.
  induction d as [|[k0 v0] d IH]; simpl; [done|].
  case_decide as Hk.
  - subst k0. rewrite filter_cons_False by (simpl; auto). done.
  - rewrite filter_cons_True by (simpl; auto). by rewrite IH.
Qed.











End CacheOperations.

(** ** The tunnel orchestrator: listing, batches and reconciliation *)

Section CacheBatches.
Context {W : Type} {Ops : World W}.
Import PortMgr Tunnels.











End CacheBatches.

Section LifecycleSteps.
Context {W : Type} {Ops : World W}.
Import PortMgr Tunnels Containers.


End LifecycleSteps.
(** ** The container lifecycle: records and snapshots *)

Section ContainerRecords.
Context {W : Type} {Ops : World W}.
Import PortMgr Tunnels Containers.
#[local] Arguments fetch_tunnel_id : simpl never.
#[local] Arguments delete_tunnels : simpl never.
#[local] Arguments create_tunnels : simpl never.
#[local] Arguments services_to_tunnel : simpl never.











End ContainerRecords.

(** ** The claims on concrete runs *)

Section Runs.
Import PortMgr Tunnels Containers Scenario.

(** C1 fails as stated.  The broker resolves no id and refuses the
    notebook tunnel: [create_container] returns [None] and removes the
    container, but the ssh and app tunnels of the batch have no id, are
    not deleted, and keep their ports. *)
Lemma unresolved_tunnels_survive_rollback :
  fst (fst blind_create) = None ∧
  Sim.containers (snd blind_create) = [] ∧
  is_port_allocated (port_manager (tunnel_manager (snd (fst blind_create)))) 10000
    = true ∧
  is_port_allocated (port_manager (tunnel_manager (snd (fst blind_create)))) 10001
    = true ∧
  row_Port <$> Sim.broker_rows (snd blind_create) = [10000; 10001].
Proof. vm_compute. done. Qed.

(** C5 fails as stated.  A reconciliation against a broker that holds a
    tunnel on port 80 puts 80 in the allocation table: a reserved port
    outside the range 10000 to 10009. *)
Lemma reconciliation_allocates_reserved_port :
  reachable (Ops := Sim.world Sim.no_faults) any_rows reconciled_80 ∧
  ¬ pool_inv reconciled_80.
Proof.
  split.
  - exact (reach_reconcile (Ops := Sim.world Sim.no_faults) any_rows Sim.tunnels0
             broker_port_80
             (reach_fresh any_rows Sim.nps0 (config Sim.ports0)) I).
  - intros Hinv.
    assert (Hal : allocated reconciled_80 80)
      by (apply is_port_allocated_spec; vm_compute; done).
    apply Hinv in Hal as [[Hlo _] _]. vm_compute in Hlo. by apply Hlo.
Qed.

(** C9 fails as stated.  The version tag [v1] is neither equal to the
    only entry of the history nor a suffix of its tag part, and
    [start_from_snapshot] takes that entry. *)
Lemma version_tag_matches_inside_tag :
  image_tag_to_use history1 (Some "v1") = Some "demo:v1_20240101_000000" ∧
  "v1" ≠ "demo:v1_20240101_000000" ∧
  tag_part "demo:v1_20240101_000000" = "v1_20240101_000000" ∧
  Py.endswith (tag_part "demo:v1_20240101_000000") "v1" = false.
Proof. vm_compute. done. Qed.

(** C10 fails as stated.  After a reconciliation against a broker with
    two tunnels on port 10000 the cached ports are allocated;
    [delete_tunnel(1)] releases 10000 and leaves tunnel 2 cached on a
    port that is not allocated. *)
Lemma shared_port_breaks_cache_invariant :
  cache_inv (fst reconciled_shared) ∧
  ¬ cache_inv (fst (perform (Ops := Sim.world Sim.no_faults) (DeleteTunnel 1)
                      (fst reconciled_shared) (snd reconciled_shared))).
Proof.
  split.
  - eapply grows_cache_inv;
      [apply (load_tunnel_mappings_grows (Ops := Sim.world Sim.no_faults))|].
    intros e He. by apply elem_of_nil in He.
  - intros Hinv.
    assert (He : (2, {| ti_port := 10000; ti_service := "unknown"; ti_client_id := 2;
                        ti_target := "10.0.0.9:53"; ti_remark := "dns udp" |})
                 ∈ tunnel_mappings
                     (fst (perform (Ops := Sim.world Sim.no_faults) (DeleteTunnel 1)
                             (fst reconciled_shared) (snd reconciled_shared))))
      by (vm_compute; left).
    apply Hinv, is_port_allocated_spec in He. vm_compute in He. done.
Qed.

End Runs.

(** ** The theorems at concrete inputs *)

Section Witnesses.
Import PortMgr Tunnels Containers Scenario.

(** The first allocation in the simulated pool gives 10000, which is
    released and allocated again. *)
Lemma release_after_allocate_witness :
  allocate_port (Ops := Sim.world Sim.no_faults) Sim.ports0 "ssh" (Some 2) None Sim.start
    = (Some 10000,
       snd (fst (allocate_port (Ops := Sim.world Sim.no_faults) Sim.ports0 "ssh" (Some 2) None Sim.start)),
       Sim.start) ∧
  ∃ pm2,
    release_port
      (snd (fst (allocate_port (Ops := Sim.world Sim.no_faults) Sim.ports0 "ssh" (Some 2) None Sim.start)))
      10000 = (true, pm2) ∧
    _is_port_available pm2 10000 = true.
Proof.
  split; [vm_compute; reflexivity|].
  destruct (release_after_allocate (Ops := Sim.world Sim.no_faults) Sim.ports0 "ssh" (Some 2) None
              Sim.start 10000
              (snd (fst (allocate_port (Ops := Sim.world Sim.no_faults) Sim.ports0 "ssh" (Some 2) None
                           Sim.start)))
              Sim.start) as [(pm2 & Hrel & _ & Hav & _) _].
  - vm_compute. reflexivity.
  - exists pm2. split; [exact Hrel | exact Hav].
Defined.

(** A tunnel to a host the broker refuses: the port 10000 that was
    allocated is free again. *)
Lemma failed_add_releases_port_witness :
  ∃ self' w3,
    create_tunnel (Ops := Sim.world host_refused) Sim.tunnels0 "10.0.0.5:22" "ssh"
      None None None Sim.start = (None, self', w3) ∧
    tunnel_mappings self' = [] ∧
    is_port_allocated (port_manager self') 10000 = false.
Proof.
  edestruct (failed_add_releases_port (Ops := Sim.world host_refused) Sim.tunnels0
               "10.0.0.5:22" "ssh" None None None Sim.start)
    as (self' & Hc & Hm & Hal & _).
  - vm_compute. reflexivity.
  - vm_compute. reflexivity.
  - vm_compute. reflexivity.
  - eexists self', _. split; [exact Hc|]. split; [exact Hm | exact Hal].
Defined.

(** Three failed attempts give [None] after the third; an answer that
    does not decode gives a rejection at the first attempt. *)
Lemma transport_failure_and_decode_error_witness :
  Nps._send_request (Ops := Script.world) Sim.nps0 "index/del" (Some [("id", PInt 1)]) POST
    three_failures
    = (None, {| Script.pending := []; Script.slept := 2; Script.sent := 3 |}) ∧
  ∃ rejection,
    Nps._send_request (Ops := Script.world) Sim.nps0 "index/del" (Some [("id", PInt 1)])
      POST undecodable
      = (Some rejection,
         {| Script.pending := []; Script.slept := 0; Script.sent := 1 |}) ∧
    r_status rejection = Some 0 ∧
    r_msg rejection = Some "JSON Decode Error: Expecting value".
Proof.
  destruct (transport_failure_and_decode_error (Ops := Script.world) Sim.nps0
              "index/del" (Some [("id", PInt 1)]) POST) as [Hfail Hdecode].
  split.
  - pose proof (Hfail three_failures three_failures 1700000000 _ eq_refl eq_refl)
      as Hnone.
    rewrite Hnone by (vm_compute; repeat split).
    vm_compute. reflexivity.
  - destruct (Hdecode undecodable undecodable _ 1700000000 _ 0%nat _ _
                eq_refl eq_refl eq_refl I eq_refl eq_refl eq_refl eq_refl)
      as (rejection & Hs & Hst & Hmsg & _).
    exists rejection. split; [exact Hs|]. split; [exact Hst | exact Hmsg].
Defined.

(** The state after one [create_tunnel] from a fresh orchestrator. *)
Lemma allocated_ports_stay_in_pool_witness :
  pool_inv
    (snd (fst (create_tunnel (Ops := Sim.world Sim.no_faults) Sim.tunnels0 "10.0.0.5:22" "ssh"
                 None None None Sim.start))).
Proof.
  apply (allocated_ports_stay_in_pool (Ops := Sim.world Sim.no_faults)).
  exact (reach_create_tunnel (Ops := Sim.world Sim.no_faults) rows_in_pool Sim.tunnels0 "10.0.0.5:22" "ssh"
           None None None Sim.start
           (reach_fresh rows_in_pool Sim.nps0 (config Sim.ports0))).
Defined.

(** A [create_tunnel] on the empty cache keeps the invariant; with a
    broker that lists no tunnel it returns a record without id whose
    port 10000 is allocated and survives [clear_service_tunnels]. *)
Lemma cached_ports_stay_allocated_witness :
  cache_inv
    (fst (perform (Ops := Sim.world Sim.no_faults) (CreateTunnel "10.0.0.5:22" "ssh" None None None)
            Sim.tunnels0 Sim.start)) ∧
  ∃ t tm' w',
    create_tunnel (Ops := Sim.world blind) Sim.tunnels0 "10.0.0.5:22" "ssh"
      None None None Sim.start = (Some t, tm', w') ∧
    tunnel_id t = None ∧ ti_port (info t) = 10000 ∧
    tunnel_mappings tm' = [] ∧
    list_tunnels tm' None None = [] ∧
    allocated tm' 10000 ∧
    allocated
      (snd (fst (clear_service_tunnels (Ops := Sim.world blind) tm' "ssh" None w')))
      10000.
Proof.
  assert (Hnn : 0 ≤ range_start (config (port_manager Sim.tunnels0)))
    by (vm_compute; discriminate).
  assert (Hinv : cache_inv Sim.tunnels0)
    by (intros e He; by apply elem_of_nil in He).
  assert (Hown : ports_owned_once Sim.tunnels0)
    by (intros e1 e2 He; by apply elem_of_nil in He).
  split.
  - exact (proj1 (proj1 (cached_ports_stay_allocated (Ops := Sim.world Sim.no_faults))
                    (CreateTunnel "10.0.0.5:22" "ssh" None None None) _ _
                    Hnn Hinv Hown)).
  - edestruct (proj2 (cached_ports_stay_allocated (Ops := Sim.world blind))
                 Sim.tunnels0 "10.0.0.5:22" "ssh" None None None Sim.start)
      as (Hmap & Hal & Hlist & Hclear).
    + vm_compute. reflexivity.
    + reflexivity.
    + eexists _, _, _. split; [vm_compute; reflexivity|].
      split; [reflexivity|]. split; [reflexivity|].
      split; [exact Hmap|]. split; [apply Hlist|]. split; [exact Hal|].
      exact (Hclear Hnn Hinv "ssh" None _).
Defined.

(** The broker refuses the notebook tunnel: the ssh and app tunnels
    get the ids 1 and 2, are deleted again, and nothing of [demo] is
    left. *)
Lemma failed_provisioning_rolls_back_witness :
  ∃ self' w',
    create_container (Ops := Sim.world jupyter_refused) Sim.manager0 "ubuntu" "demo"
      None Sim.start = (None, self', w') ∧
    container_images self' !! "demo" = None ∧
    image_history self' !! "demo" = None ∧
    container_tunnels self' !! "demo" = None ∧
    ¬ allocated (tunnel_manager self') 10000 ∧
    ¬ allocated (tunnel_manager self') 10001.
Proof.
  assert (H1 : containers_get (World := Sim.world jupyter_refused) "demo" Sim.start
               = (Raise (NotFound "No such container"), Sim.start))
    by (vm_compute; reflexivity).
  eassert (H3 : containers_run (World := Sim.world jupyter_refused)
                  (run_args Sim.manager0 "ubuntu" "demo" None) Sim.start
                = (Ok _, _)) by (vm_compute; reflexivity).
  match type of H3 with
  | _ = (_, ?w1) =>
      eassert (H4 : _get_container_ip (Ops := Sim.world jupyter_refused) "demo"
                      (time_sleep (World := Sim.world jupyter_refused) 5 w1)
                    = (Some _, _)) by (vm_compute; reflexivity)
  end.
  match type of H4 with
  | _ = (Some ?ip, ?w3) =>
      eassert (Hssh : service_tunnel (Ops := Sim.world jupyter_refused) "demo" ip
                        ("ssh", 22) (tunnel_manager Sim.manager0) w3
                      = (Some _, _, _)) by (vm_compute; reflexivity);
      match type of Hssh with
      | _ = (_, ?tmA, ?wA) =>
          eassert (Hjup : service_tunnel (Ops := Sim.world jupyter_refused) "demo" ip
                            ("jupyter", 8888) tmA wA
                          = (None, _, _)) by (vm_compute; reflexivity)
      end;
      eassert (H5 : create_tunnels (Ops := Sim.world jupyter_refused) "demo" ip
                      (services_to_tunnel Sim.manager0) [] [] false
                      (tunnel_manager Sim.manager0) w3
                    = (_, _, _, _, _)) by (vm_compute; reflexivity)
  end.
  destruct (failed_provisioning_rolls_back (Ops := Sim.world jupyter_refused)
               Sim.manager0 "ubuntu" "demo" None _ _ _ _ _ _ _
               H1 eq_refl H3 H4
               (fails_later _ _ _ _ _ _ _ _ _ Hssh (fails_now _ _ _ _ _ _ _ _ Hjup)))
    as (self' & w' & created & ports & tm1 & w4 & Hct & Hc & Hci & Hih & Hctn
        & _ & _ & _ & _ & _ & Hrel & _).
  exists self', w'. split; [exact Hc|]. split; [exact Hci|].
  split; [exact Hih|]. split; [exact Hctn|].
  pose proof (eq_trans (eq_sym H5) Hct) as Heq. clear H5 Hct.
  injection Heq as Hcreated _ _ _. clear Hc.
  rewrite <- Hcreated in Hrel. clear Hcreated.
  assert (Hnd : NoDup (batch_ids
    [("ssh", {| tunnel_id := Some 1;
                info := {| ti_port := 10000; ti_service := "ssh"; ti_client_id := 2;
                           ti_target := "172.17.0.2:22";
                           ti_remark := "Container:demo_Service:ssh" |} |});
     ("app", {| tunnel_id := Some 2;
                info := {| ti_port := 10001; ti_service := "app"; ti_client_id := 2;
                           ti_target := "172.17.0.2:5000";
                           ti_remark := "Container:demo_Service:app" |} |})])).
  { unfold batch_ids. apply (bool_decide_unpack _). vm_compute. exact I. }
  assert (Hacc : ∀ st,
    st ∈ [("ssh", {| tunnel_id := Some 1;
                info := {| ti_port := 10000; ti_service := "ssh"; ti_client_id := 2;
                           ti_target := "172.17.0.2:22";
                           ti_remark := "Container:demo_Service:ssh" |} |});
          ("app", {| tunnel_id := Some 2;
                info := {| ti_port := 10001; ti_service := "app"; ti_client_id := 2;
                           ti_target := "172.17.0.2:5000";
                           ti_remark := "Container:demo_Service:app" |} |})] →
    ∃ id, tunnel_id st.2 = Some id ∧
          broker_accepts_delete (Ops := Sim.world jupyter_refused)
            (nps (tunnel_manager Sim.manager0)) id).
  { intros st Hst.
    apply elem_of_cons in Hst as [->|Hst];
      [|apply list_elem_of_singleton in Hst as ->];
      (eexists; split; [reflexivity|]; intros w; vm_compute; reflexivity). }
  split.
  + exact (proj1 (Hrel Hnd Hacc _ (list_elem_of_here _ _))).
  + exact (proj1 (Hrel Hnd Hacc _
                    (list_elem_of_further _ _ _ (list_elem_of_here _ _)))).
Defined.

(** Without history [start_from_snapshot] returns [None]; with the
    history of one snapshot and the version tag [v1] it creates the
    container from that snapshot. *)
Lemma snapshot_resolution_witness :
  start_from_snapshot (Ops := Sim.world Sim.no_faults) Sim.manager0 "demo" None Sim.start
    = (None, Sim.manager0, Sim.start) ∧
  start_from_snapshot (Ops := Sim.world Sim.no_faults) manager_with_history "demo" (Some "v1")
    daemon_with_snapshot
    = create_container (Ops := Sim.world Sim.no_faults) manager_with_history "demo:v1_20240101_000000"
        "demo" None daemon_with_snapshot.
Proof.
  split.
  - apply (proj1 (proj2 (proj2 (proj2 (proj2 (snapshot_resolution (Ops := Sim.world Sim.no_faults) [])))))).
    + reflexivity.
    + reflexivity.
  - eapply (proj2 (proj2 (proj2 (proj2 (proj2
              (snapshot_resolution (Ops := Sim.world Sim.no_faults) history1)))))).
    + reflexivity.
    + vm_compute. reflexivity.
    + vm_compute. reflexivity.
    + vm_compute. reflexivity.
    + reflexivity.
    + reflexivity.
Defined.

(** [stop_and_commit("demo")] on a running container whose stop and
    tunnel deletions succeed raises [UnboundLocalError]: the daemon has
    no new image and the history keeps its single entry. *)
Lemma snapshot_raises_unbound_local_witness :
  fst (fst snapshot) = Raised (UnboundLocalError "timestamp") ∧
  image_history (snd (fst snapshot)) !! "demo" = Some ["ubuntu"] ∧
  Sim.images (snd snapshot) = ["ubuntu"].
Proof.
  eassert (Hget : containers_get (World := Sim.world Sim.no_faults) "demo" world1
                  = (Ok _, _)) by (vm_compute; reflexivity).
  match type of Hget with
  | _ = (_, ?w1) =>
      eassert (Hstop : stop_container (Ops := Sim.world Sim.no_faults) manager1 "demo" w1
                       = (true, _, _)) by (vm_compute; reflexivity)
  end.
  pose proof (proj2 (snapshot_raises_unbound_local (Ops := Sim.world Sim.no_faults)
                       manager1 "demo" None world1) _ _ _ _ Hget Hstop) as Hraises.
  unfold snapshot. rewrite Hraises.
  split; [reflexivity|]. vm_compute. split; reflexivity.
Defined.

(** [update_tunnel(1, port=10005)] on the ssh tunnel of [demo], which
    holds port 10000, returns [False] without any request to the broker;
    the cache is unchanged and both ports are allocated. *)
Lemma port_change_leaks_new_port_witness :
  fst (fst moved) = false ∧
  Sim.endpoints_called (snd moved) = Sim.endpoints_called world1 ∧
  tunnel_mappings (snd (fst moved)) = tunnel_mappings (tunnel_manager manager1) ∧
  is_port_allocated (port_manager (tunnel_manager manager1)) 10005 = false ∧
  is_port_allocated (port_manager (snd (fst moved))) 10000 = true ∧
  is_port_allocated (port_manager (snd (fst moved))) 10005 = true.
Proof.
  eassert (Hget : ODict.get 1 (tunnel_mappings (tunnel_manager manager1)) = Some _)
    by (vm_compute; reflexivity).
  destruct (port_change_leaks_new_port (Ops := Sim.world Sim.no_faults)
              (tunnel_manager manager1) 1 _ None 10005 None world1 Hget)
    as (self' & Hupd & Hmap & Hfree & Hnew & Hkeeps).
  - vm_compute. discriminate.
  - vm_compute. reflexivity.
  - unfold moved. rewrite Hupd. simpl.
    split; [reflexivity|]. split; [vm_compute; reflexivity|].
    split; [exact Hmap|]. split; [exact Hfree|]. split; [|exact Hnew].
    apply is_port_allocated_spec, Hkeeps, is_port_allocated_spec.
    vm_compute. reflexivity.
Defined.

(** [stop_container("demo")] returns [False] when the daemon has no such
    container and no tunnel is bound to the name, and [True] when the
    daemon failed to stop the container, which is still running, and the
    tunnels were deleted. *)
Lemma stop_result_misreads_runtime_outcome_witness :
  fst (fst stop_absent) = false ∧
  fst (fst stop_failing) = true ∧
  status <$> Sim.containers (snd stop_failing) = ["running"].
Proof.
  split.
  - apply (proj1 (stop_result_misreads_runtime_outcome (Ops := Sim.world Sim.no_faults)
                    Sim.manager0 "demo" Sim.start)
             (NotFound "No such container") Sim.start).
    vm_compute. reflexivity.
  - eassert (Hget : containers_get (World := Sim.world stop_fails) "demo" world1
                    = (Ok _, _)) by (vm_compute; reflexivity).
    unfold stop_failing.
    rewrite (proj1 (proj2 (stop_result_misreads_runtime_outcome
                             (Ops := Sim.world stop_fails) manager1 "demo" world1))
               _ _ Hget).
    split; vm_compute; reflexivity.
Defined.

End Witnesses.

(** ** Further theorems at concrete inputs *)

Section MoreWitnesses.
Import PortMgr PortQueries Nps NpsClients Tunnels Containers Scenario Examples.













End MoreWitnesses.
